(** * Ollama model benchmark: a shallow embedding of [benchmark_models.py]

    The development follows the Python source top to bottom: the string
    and number operations the script relies on, the subprocess and
    exception model, the [OllamaBenchmark] object with its methods written
    in a small state-and-exception monad, and finally [main].

    Strings.  A Python [str] is a sequence of Unicode code points
    ([text]); [len], slices, [strip] and [split] work on code points, with
    the white space of [str.isspace].

    Numbers.  A Python [int] is an integer and a Python [float] an IEEE 754
    binary64 value ([PyNum.float]): every operation is the exact operation
    on rationals followed by rounding to the nearest binary64 value, ties
    to even, with signed zeros, infinities and NaN. *)

From Stdlib Require Import ZArith NArith QArith Qround Qpower Lia Lqa String Ascii List Permutation Sorted DecimalString.
From stdpp Require Import base option gmap strings.
Import ListNotations.

Local Open Scope string_scope.
Local Open Scope Z_scope.

(** ** Python strings *)

(** A [str]: its code points. *)
Definition text : Set := list N.

Module PyStr.

(** Decoding of UTF-8 bytes into code points. *)
Fixpoint decode_utf8 (bs : list N) : text :=
  match bs with
  | [] => []
  | b0 :: r0 =>
      if (b0 <? 128)%N then b0 :: decode_utf8 r0
      else if (b0 <? 224)%N then
        match r0 with
        | b1 :: r1 => ((b0 - 192) * 64 + (b1 - 128))%N :: decode_utf8 r1
        | [] => [b0]
        end
      else if (b0 <? 240)%N then
        match r0 with
        | b1 :: b2 :: r2 =>
            ((b0 - 224) * 4096 + (b1 - 128) * 64 + (b2 - 128))%N
            :: decode_utf8 r2
        | _ => [b0]
        end
      else
        match r0 with
        | b1 :: b2 :: b3 :: r3 =>
            ((b0 - 240) * 262144 + (b1 - 128) * 4096
             + (b2 - 128) * 64 + (b3 - 128))%N
            :: decode_utf8 r3
        | _ => [b0]
        end
  end.

(** The [str] written as a literal. *)
Definition u (s : string) : text :=
  decode_utf8 (map (fun a => N.of_nat (nat_of_ascii a)) (list_ascii_of_string s)).

(** [c.isspace()], the white space of [str.split] and [str.strip]:
    U+0009 to U+000D, U+001C to U+0020, U+0085, U+00A0, U+1680, U+2000 to
    U+200A, U+2028, U+2029, U+202F, U+205F and U+3000. *)
Definition isspace (c : N) : bool :=
  ((9 <=? c) && (c <=? 13) || (28 <=? c) && (c <=? 32)
   || (c =? 133) || (c =? 160) || (c =? 5760)
   || (8192 <=? c) && (c <=? 8202)
   || (c =? 8232) || (c =? 8233) || (c =? 8239) || (c =? 8287)
   || (c =? 12288))%N.

(** [s.lstrip()] *)
Fixpoint lstrip (s : text) : text :=
  match s with
  | [] => []
  | c :: s' => if isspace c then lstrip s' else s
  end.

(** [s.rstrip()] *)
Fixpoint rstrip (s : text) : text :=
  match s with
  | [] => []
  | c :: s' =>
      match rstrip s' with
      | [] => if isspace c then [] else [c]
      | r => c :: r
      end
  end.

(** [s.strip()] *)
Definition strip (s : text) : text := rstrip (lstrip s).

(** [s.split()]: maximal runs of characters that are not white space.
    [cur] is the word being read, kept reversed. *)
Fixpoint split_ws_aux (cur : text) (s : text) : list text :=
  match s with
  | [] =>
      match cur with
      | [] => []
      | _ => [rev cur]
      end
  | c :: s' =>
      if isspace c then
        match cur with
        | [] => split_ws_aux [] s'
        | _ => rev cur :: split_ws_aux [] s'
        end
      else split_ws_aux (c :: cur) s'
  end.

Definition split_ws (s : text) : list text := split_ws_aux [] s.

(** [s.split(sep)] for a one-character separator: always at least one
    field, empty fields are kept. *)
Fixpoint split_on_aux (sep : N) (cur : text) (s : text) : list text :=
  match s with
  | [] => [rev cur]
  | c :: s' =>
      if (c =? sep)%N
      then rev cur :: split_on_aux sep [] s'
      else split_on_aux sep (c :: cur) s'
  end.

Definition split_on (sep : N) (s : text) : list text :=
  split_on_aux sep [] s.

(** [s[:n]] *)
Definition take (n : nat) (s : text) : text := firstn n s.

(** [s == t] *)
Definition eqb (s t : text) : bool := bool_decide (s = t).

(** The line feed character, ['\n']. *)
Definition LF : N := 10%N.

End PyStr.

Coercion PyStr.u : string >-> text.

(** ** Python numbers *)

Module PyNum.

Local Open Scope Q_scope.

(** A Python [float]: an IEEE 754 binary64 value.  [Fin q] is the finite
    value [q], kept in lowest terms, with [Fin 0] for [0.0]; [NegZero] is
    [-0.0]. *)
Inductive float : Set :=
| Fin (q : Q)
| NegZero
| PosInf
| NegInf
| NaN.

(** Nearest integer, ties to even. *)
Definition round_half_even (x : Q) : Z :=
  let f := Qfloor x in
  let r := x - inject_Z f in
  match Qcompare r (1 # 2) with
  | Lt => f
  | Gt => (f + 1)%Z
  | Eq => if Z.even f then f else (f + 1)%Z
  end.

(** [2 ^ c] for any integer [c]. *)
Definition pow2 (c : Z) : Q :=
  if (0 <=? c)%Z then inject_Z (2 ^ c) else 1 # Z.to_pos (2 ^ (- c)).

(** [floor (log2 q)] for [q > 0]. *)
Definition ilog2 (q : Q) : Z :=
  let e := (Z.log2 (Qnum q) - Z.log2 (Zpos (Qden q)))%Z in
  if Qle_bool (pow2 e) q then e else (e - 1)%Z.

(** The binary64 value nearest to the positive rational [a], ties to the
    even significand: a multiple of the spacing [2 ^ c] around [a], where
    numbers below [2 ^ -1022] are subnormal.  The result may be 0
    (underflow) or [2 ^ 1024] (overflow). *)
Definition nearest (a : Q) : Q :=
  let c := (Z.max (ilog2 a) (-1022) - 52)%Z in
  inject_Z (round_half_even (a / pow2 c)) * pow2 c.

(** The [float] nearest to the rational [q]; an exact zero is [0.0]. *)
Definition of_Q (q : Q) : float :=
  match Qcompare q 0 with
  | Eq => Fin 0
  | Gt =>
      let r := nearest q in
      if Qle_bool (pow2 1024) r then PosInf else Fin (Qred r)
  | Lt =>
      let r := nearest (- q) in
      if Qle_bool (pow2 1024) r then NegInf
      else if Qeq_bool r 0 then NegZero else Fin (Qred (- r))
  end.


(** The sign bit. *)
Definition signbit (f : float) : bool :=
  match f with
  | Fin q => match Qcompare q 0 with Lt => true | _ => false end
  | NegZero | NegInf => true
  | PosInf | NaN => false
  end.

Definition is_zero (f : float) : bool :=
  match f with
  | Fin q => Qeq_bool q 0
  | NegZero => true
  | _ => false
  end.

Definition zero (negative : bool) : float := if negative then NegZero else Fin 0.

Definition infinity (negative : bool) : float := if negative then NegInf else PosInf.

(** [-x] *)
Definition neg (f : float) : float :=
  match f with
  | Fin q => if Qeq_bool q 0 then NegZero else Fin (- q)
  | NegZero => Fin 0
  | PosInf => NegInf
  | NegInf => PosInf
  | NaN => NaN
  end.

(** [x + y] *)
Definition add (x y : float) : float :=
  match x, y with
  | NaN, _ | _, NaN => NaN
  | PosInf, NegInf | NegInf, PosInf => NaN
  | PosInf, _ | _, PosInf => PosInf
  | NegInf, _ | _, NegInf => NegInf
  | NegZero, _ => y
  | _, NegZero => x
  | Fin p, Fin q => of_Q (p + q)
  end.

(** [x - y] *)
Definition sub (x y : float) : float := add x (neg y).

(** [x / y] for [y] other than zero.  On a zero divisor Python raises
    [ZeroDivisionError]; every division of the script has a divisor that is
    not zero, and the value given here for that case is never used. *)
Definition div (x y : float) : float :=
  let s := xorb (signbit x) (signbit y) in
  match x, y with
  | NaN, _ | _, NaN => NaN
  | (PosInf | NegInf), (PosInf | NegInf) => NaN
  | (PosInf | NegInf), _ => infinity s
  | _, (PosInf | NegInf) => zero s
  | _, NegZero => NaN
  | NegZero, Fin q => if Qeq_bool q 0 then NaN else zero s
  | Fin p, Fin q =>
      if Qeq_bool q 0 then NaN
      else if Qeq_bool p 0 then zero s
      else of_Q (p / q)
  end.

(** [x * y] *)
Definition mul (x y : float) : float :=
  let s := xorb (signbit x) (signbit y) in
  match x, y with
  | NaN, _ | _, NaN => NaN
  | (PosInf | NegInf), _ => if is_zero y then NaN else infinity s
  | _, (PosInf | NegInf) => if is_zero x then NaN else infinity s
  | NegZero, _ | _, NegZero => zero s
  | Fin p, Fin q =>
      if Qeq_bool p 0 || Qeq_bool q 0 then zero s else of_Q (p * q)
  end.

(** [x < y] *)
Definition ltb (x y : float) : bool :=
  match x, y with
  | NaN, _ | _, NaN => false
  | _, NegInf => false
  | NegInf, _ => true
  | PosInf, _ => false
  | _, PosInf => true
  | NegZero, NegZero => false
  | NegZero, Fin q => match Qcompare 0 q with Lt => true | _ => false end
  | Fin p, NegZero => match Qcompare p 0 with Lt => true | _ => false end
  | Fin p, Fin q => match Qcompare p q with Lt => true | _ => false end
  end.

(** [round(x, ndigits)] for a float and [ndigits >= 0]: the decimal with
    [ndigits] decimals nearest to the exact value of [x], ties to even,
    converted back to the nearest float; the sign is kept. *)
Definition py_round (x : float) (ndigits : nat) : float :=
  match x with
  | Fin q =>
      let scale := (10 ^ Z.of_nat ndigits)%Z in
      let k := round_half_even (q * inject_Z scale) in
      if (k =? 0)%Z then zero (signbit x)
      else of_Q (inject_Z k / inject_Z scale)
  | _ => x
  end.

(** [float(n)], the conversion of an [int] below [2 ^ 1024] in absolute
    value, as every count and length of the script is; Python raises
    [OverflowError] on a larger one. *)
Definition of_int (n : Z) : float := of_Q (inject_Z n).

(** [a / b] for two [int]s, [b] not zero: the float nearest to the exact
    quotient (below [2 ^ 1024]; Python raises [OverflowError] on a larger
    one). *)
Definition int_div (a b : Z) : float := of_Q (inject_Z a / inject_Z b).

(** [x <= y] *)
Definition leb (x y : float) : bool :=
  match x, y with
  | NaN, _ | _, NaN => false
  | NegInf, _ => true
  | _, NegInf => false
  | _, PosInf => true
  | PosInf, _ => false
  | NegZero, NegZero => true
  | NegZero, Fin q => Qle_bool 0 q
  | Fin p, NegZero => Qle_bool p 0
  | Fin p, Fin q => Qle_bool p q
  end.

(** [x == y] *)
Definition eqb (x y : float) : bool := leb x y && leb y x.

(** A Python number: an [int] or a [float]. *)
Inductive number : Set :=
| Int (z : Z)
| Float (f : float).

(** The float a number is converted to in mixed arithmetic. *)
Definition to_float (n : number) : float :=
  match n with
  | Int z => of_int z
  | Float f => f
  end.

(** [round(n, ndigits)]: an [int] is returned as it is. *)
Definition round_number (n : number) (ndigits : nat) : number :=
  match n with
  | Int z => Int z
  | Float f => Float (py_round f ndigits)
  end.


End PyNum.
(** ** Exceptions and subprocesses *)

(** The exception classes the script can meet.  [KeyboardInterrupt] and
    [SystemExit] derive from [BaseException] only; the others derive from
    [Exception]. *)
Inductive exn_class : Set :=
| TimeoutExpired
| CalledProcessError
| FileNotFoundError
| OtherException
| KeyboardInterrupt
| SystemExit.

(** An exception object: its class and the text [str(e)] gives. *)
Record exn : Set := Exn { class_of : exn_class; str : text }.

(** [isinstance(e, Exception)] *)
Definition is_Exception (e : exn) : bool :=
  match class_of e with
  | KeyboardInterrupt | SystemExit => false
  | _ => true
  end.

Definition is_class (c : exn_class) (e : exn) : bool :=
  match c, class_of e with
  | TimeoutExpired, TimeoutExpired
  | CalledProcessError, CalledProcessError
  | FileNotFoundError, FileNotFoundError
  | OtherException, OtherException
  | KeyboardInterrupt, KeyboardInterrupt
  | SystemExit, SystemExit => true
  | _, _ => false
  end.

(** A computation that returns or raises. *)
Inductive result (A : Type) : Type :=
| Ok (a : A)
| Raise (e : exn).
Arguments Ok {A} a.
Arguments Raise {A} e.

(** [subprocess.CompletedProcess], with the decoded output texts. *)
Record CompletedProcess : Set :=
  { returncode : Z; stdout : text; stderr : text }.

(** What the operating system does with a command: it runs to an exit
    status, or starting or waiting for it raises (command not found,
    timeout expired, interruption of the wait, ...). *)
Inductive proc_outcome : Set :=
| Exited (cp : CompletedProcess)
| Failed (e : exn).

Definition decimal (z : Z) : string :=
  DecimalString.NilZero.string_of_int (Z.to_int z).

(** [subprocess.run(cmd, capture_output=True, text=True, check=check)]:
    with [check], a non-zero exit status raises [CalledProcessError].
    [cmd] is the command as [str(e)] shows it. *)
Definition subprocess_run (cmd : string) (check : bool) (o : proc_outcome)
  : result CompletedProcess :=
  match o with
  | Exited cp =>
      if check && negb (returncode cp =? 0)
      then Raise (Exn CalledProcessError
                    (PyStr.u ("Command '" ++ cmd ++ "' returned non-zero exit status "
                                ++ decimal (returncode cp) ++ ".")))
      else Ok cp
  | Failed e => Raise e
  end.

(** ** Data model *)

(** An entry of [self.test_prompts]. *)
Record TestPrompt : Set :=
  { tp_name : text; tp_prompt : text; expected_tokens : Z }.

(** Values stored in the [metrics] dictionary. *)
Inductive pyval : Set :=
| VNum (n : PyNum.number)
| VStr (s : text).

(** The [prompt_result] dictionary of [benchmark_model]. *)
Record PromptResult : Type :=
  { pr_name : text;
    pr_prompt : text;
    pr_response : text;
    pr_metrics : gmap string pyval }.

(** The [model_results] dictionary.  The key ["success_rate"] is the only
    one that may be absent. *)
Record ModelResult : Type :=
  { model : text;
    timestamp : string;
    prompts : list PromptResult;
    average_tps : PyNum.float;
    average_time : PyNum.float;
    success_rate : option PyNum.float }.

Record SystemInfo : Set :=
  { si_cpu_count : Z; si_memory_gb : PyNum.float; si_python_version : string }.

Record TestConfiguration : Set :=
  { tc_prompts : list TestPrompt; tc_timeout_seconds : Z }.

(** The [benchmark_data] dictionary written by [save_results]. *)
Record BenchmarkData : Type :=
  { benchmark_date : string;
    system_info : SystemInfo;
    test_configuration : TestConfiguration;
    bd_results : list ModelResult }.

(** A file on disk: just created or truncated by [open(name, 'w')], or
    holding the JSON text of a [BenchmarkData]. *)
Inductive file_content : Type :=
| EmptyFile
| JsonFile (d : BenchmarkData).

(** Lines printed on the console; formatted numbers are kept as numbers. *)
Inductive line : Type :=
| Banner
| Rule (width : nat)
| OllamaNotFound
| ErrorGettingModelList (e : exn)
| TestingPrompt (prefix : text)
| BenchmarkingModel (m : text)
| PromptName (name : text)
| PromptOk (tps : PyNum.number) (inference_time : PyNum.float)
| PromptError (err : option pyval)
| NoModelsFound
| StartingBenchmark (n : nat)
| TestPromptsCount (n : nat)
| Processing (i n : nat) (m : text)
| Interrupted
| ErrorBenchmarking (m : text) (e : exn)
| ResultsSaved (filename : string)
| NoResultsToDisplay
| SummaryTitle
| TableHeader
| Dashes (width : nat)
| TableRow (m : text) (avg_tps avg_time : PyNum.float)
    (success_percent : PyNum.number)
| FastestModel (m : text) (tps : PyNum.float).

(** ** The outside world *)

(** Everything one call of [run_inference] reads from outside: the two
    resident-set readings in bytes (a [psutil] call may raise), the two
    clock readings in seconds, and what happens to the [ollama run]
    subprocess.  A clock reading is given by the time it stands for;
    [time.time()] returns the float nearest to it. *)
Record invocation : Type :=
  { memory_before : result Z;
    start_time : Q;
    process : proc_outcome;
    end_time : Q;
    memory_after : result Z }.

(** The date and time texts, the processor count, the memory size in bytes
    and the version text are what [datetime], [psutil] and [sys] give. *)
Record world : Type :=
  { version_probe : proc_outcome;
    list_probe : proc_outcome;
    invocations : text -> text -> invocation;
    now_iso : string;
    today : string;
    cpu_count : Z;
    virtual_memory_total : Z;
    python_version : string }.

(** ** Program state and the monad of the script *)

(** The fields of the [OllamaBenchmark] object, the console, the disk, and
    every state the disk went through (most recent first), which is what a
    concurrent reader of the files could have observed. *)
Record state : Type :=
  { results : list ModelResult;
    test_prompts : list TestPrompt;
    console : list line;
    disk : gmap string file_content;
    disk_seen : list (gmap string file_content) }.

Definition M (A : Type) : Type := state -> result A * state.

#[global] Instance M_ret : MRet M := fun A a s => (Ok a, s).
#[global] Instance M_bind : MBind M := fun A B f m s =>
  match m s with
  | (Ok a, s') => f a s'
  | (Raise e, s') => (Raise e, s')
  end.

Definition raise {A} (e : exn) : M A := fun s => (Raise e, s).

Definition lift {A} (r : result A) : M A := fun s => (r, s).

(** [try: body except ... as e: handler e] where [handler] re-raises what
    it does not catch. *)
Definition try_except {A} (body : M A) (handler : exn -> M A) : M A :=
  fun s =>
    match body s with
    | (Ok a, s') => (Ok a, s')
    | (Raise e, s') => handler e s'
    end.

(** Reading [self.results], [self.test_prompts] and the disk. *)
Definition self_results : M (list ModelResult) := fun s => (Ok (results s), s).

Definition self_test_prompts : M (list TestPrompt) := fun s =>
  (Ok (test_prompts s), s).

Definition read_disk : M (gmap string file_content) := fun s => (Ok (disk s), s).

Definition print (l : line) : M unit := fun s =>
  (Ok tt, {| results := results s; test_prompts := test_prompts s;
             console := console s ++ [l];
             disk := disk s; disk_seen := disk_seen s |}).

(** [self.results.append(r)] *)
Definition results_append (r : ModelResult) : M unit := fun s =>
  (Ok tt, {| results := results s ++ [r]; test_prompts := test_prompts s;
             console := console s;
             disk := disk s; disk_seen := disk_seen s |}).

Definition set_disk (d : gmap string file_content) : M unit := fun s =>
  (Ok tt, {| results := results s; test_prompts := test_prompts s;
             console := console s;
             disk := d; disk_seen := d :: disk_seen s |}).

(** [open(filename, 'w')]: the file is created, or truncated if it exists. *)
Definition open_w (filename : string) : M unit :=
  d ← read_disk; set_disk (<[filename := EmptyFile]> d).

(** [json.dump(data, f, indent=2)] followed by closing [f]. *)
Definition json_dump (data : BenchmarkData) (filename : string) : M unit :=
  d ← read_disk; set_disk (<[filename := JsonFile data]> d).

Fixpoint foldM {A B} (f : B -> A -> M B) (l : list A) (b : B) : M B :=
  match l with
  | [] => mret b
  | a :: l' => b' ← f b a; foldM f l' b'
  end.

Fixpoint for_each {A} (f : A -> M unit) (l : list A) : M unit :=
  match l with
  | [] => mret tt
  | a :: l' => f a;; for_each f l'
  end.

(** ** Built-ins used by the script *)

(** [time.time()] when the time is [t]. *)
Definition time_time (t : Q) : PyNum.float := PyNum.of_Q t.

(** [sorted(l, key=key, reverse=True)] for keys that are not NaN:
    descending and stable, so an element is placed before the first
    element whose key is not greater than its own. *)
Fixpoint insert_reverse {A} (key : A -> PyNum.float) (x : A) (l : list A) : list A :=
  match l with
  | [] => [x]
  | y :: l' =>
      if PyNum.ltb (key x) (key y) then y :: insert_reverse key x l'
      else x :: y :: l'
  end.

Definition sorted_reverse {A} (key : A -> PyNum.float) (l : list A) : list A :=
  foldr (insert_reverse key) [] l.

(** ** class OllamaBenchmark *)

(** [__init__] *)
Definition init : M unit := fun s =>
  (Ok tt,
   {| results := [];
      test_prompts :=
        [ {| tp_name := "Creative Writing";
             tp_prompt := "Write a short story about a robot discovering emotions for the first time.";
             expected_tokens := 150 |};
          {| tp_name := "Technical Explanation";
             tp_prompt := "Explain how neural networks work in simple terms that a beginner could understand.";
             expected_tokens := 200 |};
          {| tp_name := "Code Generation";
             tp_prompt := "Write a Python function that calculates the factorial of a number using recursion.";
             expected_tokens := 100 |} ];
      console := console s; disk := disk s; disk_seen := disk_seen s |}).

(** The loop body of [get_available_models].  A line that is not blank has
    a first field, so the default of [hd] is never used. *)
Definition model_names (lines : list text) : list text :=
  flat_map (fun ln =>
              match PyStr.strip ln with
              | [] => []
              | _ => [hd [] (PyStr.split_ws ln)]
              end) lines.

Definition get_available_models (w : world) : M (list text) :=
  try_except
    (result ← lift (subprocess_run "['ollama', 'list']" true (list_probe w));
     let lines := tail (PyStr.split_on PyStr.LF (PyStr.strip (stdout result))) in
     mret (model_names lines))
    (fun e =>
       if is_class CalledProcessError e
       then print (ErrorGettingModelList e);; mret []
       else raise e).

Definition count_tokens (text : text) : nat :=
  length (PyStr.split_ws text).

(** [process.memory_info().rss / 1024 / 1024], for a resident set size that
    is an unsigned 64-bit count of bytes. *)
Definition MB (rss : Z) : PyNum.float :=
  PyNum.div (PyNum.int_div (rss mod 2 ^ 64) 1024) (PyNum.of_int 1024).

Definition error_metrics (msg : text) : gmap string pyval :=
  {[ "error" := VStr msg ]}.

Definition run_inference (w : world) (model prompt : text)
  : M (text * PyNum.float * PyNum.number * gmap string pyval) :=
  print (TestingPrompt (PyStr.take 50 prompt));;
  let inv := invocations w model prompt in
  rss_before ← lift (memory_before inv);
  let memory_before := MB rss_before in
  let start_time := time_time (start_time inv) in
  try_except
    (result ← lift (subprocess_run "" false (process inv));
     let end_time := time_time (end_time inv) in
     if negb (returncode result =? 0)
     then mret ([], PyNum.Fin 0, PyNum.Float (PyNum.Fin 0),
                error_metrics (stderr result))
     else
       let response := PyStr.strip (stdout result) in
       let total_time := PyNum.sub end_time start_time in
       let token_count := count_tokens response in
       let tokens_per_second :=
         if PyNum.ltb (PyNum.Fin 0) total_time
         then PyNum.Float
                (PyNum.div (PyNum.of_int (Z.of_nat token_count)) total_time)
         else PyNum.Int 0 in
       rss_after ← lift (memory_after inv);
       let memory_after := MB rss_after in
       let memory_used := PyNum.sub memory_after memory_before in
       let metrics : gmap string pyval :=
         <[ "total_time" := VNum (PyNum.Float (PyNum.py_round total_time 2)) ]>
         (<[ "tokens_generated" := VNum (PyNum.Int (Z.of_nat token_count)) ]>
         (<[ "tokens_per_second" := VNum (PyNum.round_number tokens_per_second 2) ]>
         (<[ "memory_delta_mb" := VNum (PyNum.Float (PyNum.py_round memory_used 2)) ]>
         (<[ "response_length" := VNum (PyNum.Int (Z.of_nat (length response))) ]>
          ∅)))) in
       mret (response, total_time, tokens_per_second, metrics))
    (fun e =>
       if is_class TimeoutExpired e
       then mret ([], PyNum.Fin 0, PyNum.Float (PyNum.Fin 0),
                  error_metrics "Timeout after 120 seconds")
       else if is_Exception e
       then mret ([], PyNum.Fin 0, PyNum.Float (PyNum.Fin 0),
                  error_metrics (str e))
       else raise e).

(** The local variables of [benchmark_model] that its loop updates. *)
Record bm_locals : Type :=
  { model_results : ModelResult;
    total_tps : PyNum.float;
    total_time : PyNum.float;
    successful_tests : nat }.

Definition append_prompt (r : ModelResult) (p : PromptResult) : ModelResult :=
  {| model := model r; timestamp := timestamp r;
     prompts := prompts r ++ [p];
     average_tps := average_tps r; average_time := average_time r;
     success_rate := success_rate r |}.

(** ["error" not in metrics] *)
Definition no_error (metrics : gmap string pyval) : bool :=
  bool_decide (metrics !! "error" = None).

(** [response[:200] + "..." if len(response) > 200 else response] *)
Definition preview (response : text) : text :=
  if (200 <? length response)%nat
  then (PyStr.take 200 response ++ PyStr.u "...")%list
  else response.

(** One iteration of the loop over [self.test_prompts]. *)
Definition benchmark_prompt (w : world) (model : text)
    (l : bm_locals) (test_prompt : TestPrompt) : M bm_locals :=
  print (PromptName (tp_name test_prompt));;
  '(response, inference_time, tps, metrics) ←
     run_inference w model (tp_prompt test_prompt);
  let prompt_result :=
    {| pr_name := tp_name test_prompt;
       pr_prompt := tp_prompt test_prompt;
       pr_response := preview response;
       pr_metrics := metrics |} in
  let model_results := append_prompt (model_results l) prompt_result in
  if no_error metrics then
    print (PromptOk tps inference_time);;
    mret {| model_results := model_results;
            total_tps := PyNum.add (total_tps l) (PyNum.to_float tps);
            total_time := PyNum.add (total_time l) inference_time;
            successful_tests := S (successful_tests l) |}
  else
    print (PromptError (metrics !! "error"));;
    mret {| model_results := model_results;
            total_tps := total_tps l;
            total_time := total_time l;
            successful_tests := successful_tests l |}.

(** The statements after the loop: the averages. *)
Definition calculate_averages (n_prompts : nat) (l : bm_locals) : ModelResult :=
  let r := model_results l in
  if (0 <? successful_tests l)%nat then
    let n := Z.of_nat (successful_tests l) in
    {| model := model r; timestamp := timestamp r; prompts := prompts r;
       average_tps := PyNum.py_round (PyNum.div (total_tps l) (PyNum.of_int n)) 2;
       average_time := PyNum.py_round (PyNum.div (total_time l) (PyNum.of_int n)) 2;
       success_rate :=
         Some (PyNum.py_round (PyNum.int_div n (Z.of_nat n_prompts)) 2) |}
  else r.

Definition benchmark_model (w : world) (model : text) : M ModelResult :=
  print (BenchmarkingModel model);;
  let model_results :=
    {| model := model; timestamp := now_iso w; prompts := [];
       average_tps := PyNum.Fin 0; average_time := PyNum.Fin 0;
       success_rate := None |} in
  test_prompts ← self_test_prompts;
  l ← foldM (benchmark_prompt w model) test_prompts
        {| model_results := model_results;
           total_tps := PyNum.Fin 0; total_time := PyNum.Fin 0;
           successful_tests := 0 |};
  test_prompts ← self_test_prompts;
  mret (calculate_averages (length test_prompts) l).

(** [psutil.virtual_memory().total] is an unsigned 64-bit count of bytes. *)
Definition save_results (w : world) : M unit :=
  let timestamp := today w in
  let filename := "benchmark-results-" ++ timestamp ++ ".json" in
  test_prompts ← self_test_prompts;
  results ← self_results;
  let benchmark_data :=
    {| benchmark_date := now_iso w;
       system_info :=
         {| si_cpu_count := cpu_count w;
            si_memory_gb :=
              PyNum.py_round
                (PyNum.int_div (virtual_memory_total w mod 2 ^ 64) (1024 ^ 3)) 1;
            si_python_version := python_version w |};
       test_configuration :=
         {| tc_prompts := test_prompts; tc_timeout_seconds := 120 |};
       bd_results := results |} in
  open_w filename;;
  json_dump benchmark_data filename;;
  print (ResultsSaved filename).

(** [r.get('success_rate', 0)] *)
Definition get_success_rate (r : ModelResult) : PyNum.number :=
  match success_rate r with
  | Some q => PyNum.Float q
  | None => PyNum.Int 0
  end.

(** [n * 100] *)
Definition times_100 (n : PyNum.number) : PyNum.number :=
  match n with
  | PyNum.Int z => PyNum.Int (z * 100)
  | PyNum.Float f => PyNum.Float (PyNum.mul f (PyNum.of_int 100))
  end.

Definition sorted_results (rs : list ModelResult) : list ModelResult :=
  sorted_reverse average_tps
    (filter (fun r => PyNum.ltb (PyNum.Fin 0) (average_tps r) = true) rs).

Definition print_summary : M unit :=
  results ← self_results;
  match results with
  | [] => print NoResultsToDisplay
  | _ =>
      print (Rule 80);; print SummaryTitle;; print (Rule 80);;
      print TableHeader;; print (Dashes 80);;
      let sorted_results := sorted_results results in
      for_each (fun result =>
                  print (TableRow (PyStr.take 34 (model result))
                           (average_tps result) (average_time result)
                           (times_100 (get_success_rate result))))
        sorted_results;;
      print (Dashes 80);;
      match sorted_results with
      | fastest :: _ => print (FastestModel (model fastest) (average_tps fastest))
      | [] => mret tt
      end
  end.

(** The loop over the models in [run_full_benchmark]; the body returns
    [true] for [break]. *)
Fixpoint benchmark_models (w : world) (n i : nat) (models : list text) : M unit :=
  match models with
  | [] => mret tt
  | model :: rest =>
      print (Processing i n model);;
      stop ← try_except
               (result ← benchmark_model w model;
                results_append result;;
                mret false)
               (fun e =>
                  if is_class KeyboardInterrupt e
                  then print Interrupted;; mret true
                  else if is_Exception e
                  then print (ErrorBenchmarking model e);; mret false
                  else raise e);
      if (stop : bool) then mret tt else benchmark_models w n (S i) rest
  end.

Definition run_full_benchmark (w : world) : M unit :=
  models ← get_available_models w;
  match models with
  | [] => print NoModelsFound
  | _ =>
      print (StartingBenchmark (length models));;
      test_prompts ← self_test_prompts;
      print (TestPromptsCount (length test_prompts));;
      print (Rule 60);;
      benchmark_models w (length models) 1 models;;
      save_results w;;
      print_summary
  end.

(** ** main *)

Definition main (w : world) : M unit :=
  print Banner;;
  print (Rule 50);;
  try_except
    (lift (subprocess_run "['ollama', '--version']" true (version_probe w));;
     mret tt)
    (fun e =>
       if is_class CalledProcessError e || is_class FileNotFoundError e
       then print OllamaNotFound;; raise (Exn SystemExit "1")
       else raise e);;
  init;;
  try_except
    (run_full_benchmark w)
    (fun e =>
       if is_class KeyboardInterrupt e then
         print Interrupted;;
         results ← self_results;
         match results with
         | [] => mret tt
         | _ => save_results w;; print_summary
         end
       else raise e).

(** The process starts with an empty console on a given disk. *)
Definition boot (d : gmap string file_content) : state :=
  {| results := []; test_prompts := []; console := [];
     disk := d; disk_seen := [] |}.

(** * Specification vocabulary *)

(** [log s ls]: the state [s] after the lines [ls] were printed. *)
Definition log (s : state) (ls : list line) : state :=
  {| results := results s; test_prompts := test_prompts s;
     console := console s ++ ls;
     disk := disk s; disk_seen := disk_seen s |}.

(** A state that holds nothing but the prompt list. *)
Definition base (ps : list TestPrompt) : state :=
  {| results := []; test_prompts := ps; console := [];
     disk := ∅; disk_seen := [] |}.

Definition value_of {A} (c : M A) (ps : list TestPrompt) : result A :=
  fst (c (base ps)).

Definition lines_of {A} (c : M A) (ps : list TestPrompt) : list line :=
  console (snd (c (base ps))).

(** A computation that reads nothing of the state but [self.test_prompts]
    and changes nothing but the console. *)
Definition console_only {A} (c : M A) : Prop :=
  forall s, c s = (value_of c (test_prompts s), log s (lines_of c (test_prompts s))).

(** The keys of the metrics dictionary of a successful call. *)
Definition metric_keys : list string :=
  ["total_time"; "tokens_generated"; "tokens_per_second";
   "memory_delta_mb"; "response_length"].

(** A metrics dictionary of a success: all five metrics, no error. *)
Definition is_success (metrics : gmap string pyval) : Prop :=
  metrics !! "error" = None /\
  Forall (fun k => exists q, metrics !! k = Some (VNum q)) metric_keys.

(** A metrics dictionary of a failure: the error text and nothing else. *)
Definition is_failure (metrics : gmap string pyval) (msg : text) : Prop :=
  metrics = {[ "error" := VStr msg ]}.

(** The exception, if any, raised inside the [try] block. *)
Definition raised_in_try (inv : invocation) (e : exn) : Prop :=
  process inv = Failed e \/
  (exists cp, process inv = Exited cp /\ returncode cp = 0 /\
              memory_after inv = Raise e).

(** The metrics dictionary built on the success path. *)
Definition success_metrics (total_time : PyNum.float) (tokens : Z)
    (tps : PyNum.number) (memory_used : PyNum.float) (len : Z)
  : gmap string pyval :=
  <[ "total_time" := VNum (PyNum.Float (PyNum.py_round total_time 2)) ]>
  (<[ "tokens_generated" := VNum (PyNum.Int tokens) ]>
  (<[ "tokens_per_second" := VNum (PyNum.round_number tps 2) ]>
  (<[ "memory_delta_mb" := VNum (PyNum.Float (PyNum.py_round memory_used 2)) ]>
  (<[ "response_length" := VNum (PyNum.Int len) ]> ∅)))).

(** What [run_inference] returns or raises; it does not depend on the
    program state. *)
Definition inference (w : world) (model prompt : text)
  : result (text * PyNum.float * PyNum.number * gmap string pyval) :=
  value_of (run_inference w model prompt) [].

(** The locals of [benchmark_model] after one more prompt whose inference
    returned [(response, inference_time, tps, metrics)]. *)
Definition next_locals (l : bm_locals) (tp : TestPrompt)
    (v : text * PyNum.float * PyNum.number * gmap string pyval) : bm_locals :=
  let '(response, inference_time, tps, metrics) := v in
  let ok := no_error metrics in
  {| model_results :=
       append_prompt (model_results l)
         {| pr_name := tp_name tp; pr_prompt := tp_prompt tp;
            pr_response := preview response; pr_metrics := metrics |};
     total_tps :=
       if ok then PyNum.add (total_tps l) (PyNum.to_float tps) else total_tps l;
     total_time :=
       if ok then PyNum.add (total_time l) inference_time else total_time l;
     successful_tests :=
       if ok then S (successful_tests l) else successful_tests l |}.

(** The (elapsed time, tokens per second) pairs returned for the prompts
    that ran without error. *)
Definition successful_runs (w : world) (model : text) (ps : list TestPrompt)
  : list (PyNum.float * PyNum.number) :=
  flat_map (fun tp =>
              match inference w model (tp_prompt tp) with
              | Ok (_, t, tps, metrics) =>
                  if no_error metrics then [(t, tps)] else []
              | Raise _ => []
              end) ps.

(** The throughputs and the elapsed times of a list of runs. *)
Definition throughputs (runs : list (PyNum.float * PyNum.number))
  : list PyNum.float :=
  map (fun run => PyNum.to_float (snd run)) runs.

Definition elapsed (runs : list (PyNum.float * PyNum.number))
  : list PyNum.float :=
  map fst runs.

(** The sum of floats as the script computes it: from [0.0], one element
    after the other. *)
Definition fsum (l : list PyNum.float) : PyNum.float :=
  fold_left PyNum.add l (PyNum.Fin 0).

(** Arithmetic mean, in float arithmetic: the sum divided by the count. *)
Definition mean (l : list PyNum.float) : PyNum.float :=
  PyNum.div (fsum l) (PyNum.of_int (Z.of_nat (length l))).

(** [pr] is the prompt result recorded for [tp]. *)
Definition recorded (w : world) (model : text)
    (tp : TestPrompt) (pr : PromptResult) : Prop :=
  exists response t tps,
    inference w model (tp_prompt tp) = Ok (response, t, tps, pr_metrics pr) /\
    pr_name pr = tp_name tp /\ pr_prompt pr = tp_prompt tp /\
    pr_response pr = preview response.

(** The outcome of one call of [run_inference], classified: a success with
    the five metrics and no error, a failure with an error text and no
    metrics, or an exception that leaves the function. *)
Definition classified (inv : invocation)
    (r : result (text * PyNum.float * PyNum.number * gmap string pyval)) : Prop :=
  match r with
  | Ok (response, total_time, tps, metrics) =>
      (exists cp, process inv = Exited cp /\ returncode cp = 0 /\
                  is_success metrics /\
                  forall msg, ~ is_failure metrics msg)
      \/ (exists msg,
             is_failure metrics msg /\ ~ is_success metrics /\
             response = [] /\ total_time = PyNum.Fin 0 /\
             tps = PyNum.Float (PyNum.Fin 0) /\
             ((exists cp, process inv = Exited cp /\ returncode cp <> 0 /\
                          msg = stderr cp)
              \/ (exists e, raised_in_try inv e /\
                            is_class TimeoutExpired e = true /\
                            msg = PyStr.u "Timeout after 120 seconds")
              \/ (exists e, raised_in_try inv e /\
                            is_class TimeoutExpired e = false /\
                            is_Exception e = true /\ msg = str e)))
  | Raise e =>
      memory_before inv = Raise e
      \/ (is_Exception e = false /\ raised_in_try inv e)
  end.

(** The three rounded entries of a metrics dictionary, for the elapsed
    time, the throughput and the two memory readings they come from. *)
Definition rounded_metrics (total : PyNum.float) (tps : PyNum.number)
    (rss0 rss1 : Z) (metrics : gmap string pyval) : Prop :=
  metrics !! "total_time" = Some (VNum (PyNum.Float (PyNum.py_round total 2))) /\
  metrics !! "tokens_per_second" = Some (VNum (PyNum.round_number tps 2)) /\
  metrics !! "memory_delta_mb" =
    Some (VNum (PyNum.Float (PyNum.py_round (PyNum.sub (MB rss1) (MB rss0)) 2))).

(** [r] is [x] rounded to two decimals: for a finite [x], the float nearest
    to a number [k / 100] that is within half a hundredth of [x], with the
    sign of [x] when it is zero; an infinity or a NaN is kept. *)
Definition rounded_to_cents (x r : PyNum.float) : Prop :=
  match x with
  | PyNum.Fin q =>
      exists k : Z,
        (q - (1 # 200) <= inject_Z k / 100 <= q + (1 # 200))%Q /\
        r = if (k =? 0)%Z then PyNum.zero (PyNum.signbit x)
            else PyNum.of_Q (inject_Z k / 100)
  | _ => r = x
  end.

(** [math.isnan(x)] *)
Definition is_nan (x : PyNum.float) : bool :=
  match x with PyNum.NaN => true | _ => false end.

(** [x < 0] is false. *)
Definition not_negative (x : PyNum.float) : Prop :=
  PyNum.ltb x (PyNum.Fin 0) = false.

(** The ["tokens_per_second"] entries recorded in a report. *)
Definition recorded_tps (r : ModelResult) : list (option pyval) :=
  map (fun pr => pr_metrics pr !! "tokens_per_second") (prompts r).

(** The table row [print_summary] prints for a report. *)
Definition table_row (r : ModelResult) : line :=
  TableRow (PyStr.take 34 (model r)) (average_tps r) (average_time r)
    (times_100 (get_success_rate r)).

(** Reports in descending order of [average_tps]. *)
Definition descending (rs : list ModelResult) : Prop :=
  StronglySorted
    (fun a b => PyNum.leb (average_tps b) (average_tps a) = true) rs.

(** The reports of [rs] whose [average_tps] equals [q], in the order of
    [rs]. *)
Definition with_tps (q : PyNum.float) (rs : list ModelResult) : list ModelResult :=
  filter (fun r => PyNum.eqb (average_tps r) q = true) rs.

(** The reports with a positive [average_tps]. *)
Definition positive (rs : list ModelResult) : list ModelResult :=
  filter (fun r => PyNum.ltb (PyNum.Fin 0) (average_tps r) = true) rs.

(** The state [s] after the reports [rs] were appended to [self.results]. *)
Definition add_results (s : state) (rs : list ModelResult) : state :=
  {| results := results s ++ rs; test_prompts := test_prompts s;
     console := console s; disk := disk s; disk_seen := disk_seen s |}.

(** What [benchmark_model] returns or raises for a model, given the prompt
    list, and what it prints. *)
Definition model_outcome (w : world) (ps : list TestPrompt) (m : text)
  : result ModelResult :=
  value_of (benchmark_model w m) ps.

Definition model_lines (w : world) (ps : list TestPrompt) (m : text)
  : list line :=
  lines_of (benchmark_model w m) ps.

(** What [get_available_models] returns or raises. *)
Definition discovered (w : world) : result (list text) :=
  value_of (get_available_models w) [].

(** The name of the file [save_results] writes. *)
Definition artifact_name (w : world) : string :=
  "benchmark-results-" ++ today w ++ ".json".

(** The reports in the file [save_results] writes, if it is there and
    complete. *)
Definition artifact_results (w : world) (s : state) : option (list ModelResult) :=
  match disk s !! artifact_name w with
  | Some (JsonFile d) => Some (bd_results d)
  | _ => None
  end.

(** The file [save_results] writes holds the reports [rs]. *)
Definition artifact_holds (w : world) (s : state) (rs : list ModelResult) : Prop :=
  artifact_results w s = Some rs.

(** The lines of the summary table for the reports [rs]. *)
Definition summary_lines (rs : list ModelResult) : list line :=
  match rs with
  | [] => [NoResultsToDisplay]
  | _ =>
      ([Rule 80; SummaryTitle; Rule 80; TableHeader; Dashes 80]
         ++ map table_row (sorted_results rs)
         ++ Dashes 80
            :: match sorted_results rs with
               | fastest :: _ =>
                   [FastestModel (model fastest) (average_tps fastest)]
               | [] => []
               end)%list
  end.

(** A word: not empty and without white space. *)
Definition is_word (t : text) : Prop :=
  t <> [] /\ Forall (fun c => PyStr.isspace c = false) t.

(** Number of occurrences of the character [c] in [s]. *)
Fixpoint count_char (c : N) (s : text) : nat :=
  match s with
  | [] => 0
  | x :: s' => (if (x =? c)%N then 1 else 0) + count_char c s'
  end.

(** * Scenarios *)

(** The prompts [__init__] installs. *)
Definition default_prompts : list TestPrompt :=
  test_prompts (snd (init (boot ∅))).

(** The state of a fresh [OllamaBenchmark] on an empty disk. *)
Definition fresh : state := snd (init (boot ∅)).

(** The state of [main] when it calls [run_full_benchmark]. *)
Definition started : state := log fresh [Banner; Rule 50].

(** The state in which [main] calls [run_full_benchmark], on the disk [d]. *)
Definition started_on (d : gmap string file_content) : state :=
  snd (init (log (boot d) [Banner; Rule 50])).

(** The first of the prompts [__init__] installs. *)
Definition first_prompt : text :=
  "Write a short story about a robot discovering emotions for the first time.".

(** Position of a prompt text in [default_prompts]. *)
Fixpoint prompt_index_in (ps : list TestPrompt) (p : text) : nat :=
  match ps with
  | [] => 0
  | tp :: ps' => if PyStr.eqb (tp_prompt tp) p then 0 else S (prompt_index_in ps' p)
  end.

Definition prompt_index (p : text) : nat := prompt_index_in default_prompts p.

(** A text of [n] words. *)
Fixpoint words (n : nat) : text :=
  match n with
  | O => []
  | S n' => (PyStr.u "tok " ++ words n')%list
  end.

Definition exits (rc : Z) (out err : text) : proc_outcome :=
  Exited {| returncode := rc; stdout := out; stderr := err |}.

(** An inference that prints [out] and takes [t] seconds. *)
Definition answers (out : text) (t : Q) : invocation :=
  {| memory_before := Ok 104857600;
     start_time := 1000;
     process := exits 0 out "";
     end_time := 1000 + t;
     memory_after := Ok 105906176 |}.

(** An inference on which the subprocess call raises [e]. *)
Definition fails_with (e : exn) : invocation :=
  {| memory_before := Ok 104857600;
     start_time := 1000;
     process := Failed e;
     end_time := 1000;
     memory_after := Ok 104857600 |}.

Definition times_out : invocation :=
  fails_with (Exn TimeoutExpired "Command timed out after 120 seconds").

Definition interrupted : invocation := fails_with (Exn KeyboardInterrupt "").

(** An inference whose first memory reading raises. *)
Definition probe_fails : invocation :=
  {| memory_before := Raise (Exn OtherException "process no longer exists");
     start_time := 1000;
     process := exits 0 "never run" "";
     end_time := 1000;
     memory_after := Ok 104857600 |}.

(** The output of [ollama list] for the given model names. *)
Definition listing (names : list text) : text :=
  (PyStr.u "NAME ID SIZE MODIFIED"
   ++ concat (map (fun n => PyStr.LF :: n ++ PyStr.u " 0a1b2c 4.1GB today") names)
   ++ [PyStr.LF])%list.

Definition a_world (list : proc_outcome)
    (inv : text -> text -> invocation) : world :=
  {| version_probe := exits 0 "ollama version is 0.5.7" "";
     list_probe := list;
     invocations := inv;
     now_iso := "2025-01-15T10:30:00.000000";
     today := "2025-01-15";
     cpu_count := 8;
     virtual_memory_total := 17179869184;
     python_version := "3.12.3" |}.

(** One model whose every answer is the single word ["a"], after three
    seconds. *)
Definition slow_word : world :=
  a_world (exits 0 (listing ["m" : text]) "") (fun _ _ => answers "a" 3).

(** Scenario A: [m1] answers the three prompts at 10, 20 and 30 tokens per
    second. *)
Definition scenario_A : world :=
  a_world (exits 0 (listing ["m1" : text]) "")
    (fun _ p => match prompt_index p with
                | 0%nat => answers (words 10) 1
                | 1%nat => answers (words 20) 1
                | _ => answers (words 30) 1
                end).

(** Scenario B: [m2] times out on the three prompts. *)
Definition scenario_B : world :=
  a_world (exits 0 (listing ["m2" : text]) "") (fun _ _ => times_out).

(** A model interrupted by the user during its inference. *)
Definition interrupted_world : world :=
  a_world (exits 0 (listing ["m" : text]) "") (fun _ _ => interrupted).

(** The report [benchmark_model] returns, when it returns. *)
Definition report_of (w : world) (m : text) (s : state) : ModelResult :=
  match fst (benchmark_model w m s) with
  | Ok r => r
  | Raise _ =>
      {| model := m; timestamp := ""; prompts := [];
         average_tps := PyNum.Fin 0; average_time := PyNum.Fin 0;
         success_rate := None |}
  end.

(** One model that answers ["a"], ["a"] and ["a b"], each after three
    seconds. *)
Definition thirds : world :=
  a_world (exits 0 (listing ["m" : text]) "")
    (fun _ p => match prompt_index p with
                | 0%nat => answers "a" 3
                | 1%nat => answers "a" 3
                | _ => answers "a b" 3
                end).

(** One model that answers the first prompt and times out on the others. *)
Definition one_of_three : world :=
  a_world (exits 0 (listing ["m" : text]) "")
    (fun _ p => match prompt_index p with
                | 0%nat => answers "a" 3
                | _ => times_out
                end).

(** One model whose every answer is the single word ["a"], after forty
    seconds. *)
Definition forty_seconds : world :=
  a_world (exits 0 (listing ["m" : text]) "") (fun _ _ => answers "a" 40).

(** A report with the given name and average; the other fields are those of
    a model none of whose prompts succeeded. *)
Definition report_with (m : text) (tps : PyNum.float) : ModelResult :=
  {| model := m; timestamp := "2025-01-15T10:30:00.000000"; prompts := [];
     average_tps := tps; average_time := PyNum.Fin 0; success_rate := None |}.

(** A benchmark object that holds the reports [rs]. *)
Definition holding (rs : list ModelResult) : state :=
  {| results := rs; test_prompts := default_prompts; console := [];
     disk := ∅; disk_seen := [] |}.

(** Two models; the second memory reading taken for [m1], before its second
    prompt, raises. *)
Definition flaky : world :=
  a_world (exits 0 (listing ["m1" : text; "m2" : text]) "")
    (fun m p =>
       if PyStr.eqb m "m1" then
         match prompt_index p with
         | 0%nat => answers "a b c" 1
         | _ => probe_fails
         end
       else answers "a b" 1).

(** Scenario D: five models, the user interrupts the third one during its
    second prompt. *)
Definition scenario_D : world :=
  a_world
    (exits 0 (listing ["m1" : text; "m2" : text; "m3" : text; "m4" : text;
                       "m5" : text]) "")
    (fun m p =>
       if PyStr.eqb m "m3" then
         match prompt_index p with
         | 0%nat => answers "a b c" 1
         | _ => interrupted
         end
       else answers "a b" 1).

(** [ollama list] exits with status 1. *)
Definition list_fails : world :=
  a_world (exits 1 "" "Error: could not connect to ollama app") (fun _ _ => times_out).


(** The [ollama] command does not exist. *)
Definition no_ollama : world :=
  {| version_probe :=
       Failed (Exn FileNotFoundError "[Errno 2] No such file or directory: 'ollama'");
     list_probe :=
       Failed (Exn FileNotFoundError "[Errno 2] No such file or directory: 'ollama'");
     invocations := fun _ _ => times_out;
     now_iso := "2025-01-15T10:30:00.000000";
     today := "2025-01-15";
     cpu_count := 8;
     virtual_memory_total := 17179869184;
     python_version := "3.12.3" |}.

(** * Reasoning about the monad *)

Local Open Scope list_scope.

Lemma log_nil s : log s [] = s.
Proof. destruct s; unfold log; simpl; by rewrite app_nil_r. Qed.

Lemma log_log s a b : log (log s a) b = log s (a ++ b).
Proof. unfold log; simpl; by rewrite <- app_assoc. Qed.

Lemma log_base_console ps ls : console (log (base ps) ls) = ls.
Proof. reflexivity. Qed.

Lemma console_only_intro {A} (c : M A) :
  (forall ps, exists v ls, forall s, test_prompts s = ps -> c s = (v, log s ls)) ->
  console_only c.
Proof.
  intros H s. destruct (H (test_prompts s)) as (v & ls & Hc).
  unfold value_of, lines_of.
  rewrite (Hc (base (test_prompts s)) eq_refl), (Hc s eq_refl). reflexivity.
Qed.

Lemma console_only_elim {A} (c : M A) :
  console_only c ->
  forall ps, exists v ls, forall s, test_prompts s = ps -> c s = (v, log s ls).
Proof.
  intros H ps. exists (value_of c ps), (lines_of c ps). intros s <-. apply H.
Qed.

Lemma console_only_ret {A} (a : A) : console_only (mret a : M A).
Proof.
  apply console_only_intro. intros ps. exists (Ok a), []. intros s _.
  by rewrite log_nil.
Qed.

Lemma console_only_raise {A} (e : exn) : console_only (raise e : M A).
Proof.
  apply console_only_intro. intros ps. exists (Raise e), []. intros s _.
  unfold raise. by rewrite log_nil.
Qed.

Lemma console_only_lift {A} (r : result A) : console_only (lift r).
Proof.
  apply console_only_intro. intros ps. exists r, []. intros s _.
  unfold lift. by rewrite log_nil.
Qed.

Lemma console_only_print (l : line) : console_only (print l).
Proof.
  apply console_only_intro. intros ps. exists (Ok tt), [l]. intros s _.
  reflexivity.
Qed.

Lemma console_only_self_test_prompts : console_only self_test_prompts.
Proof.
  apply console_only_intro. intros ps. exists (Ok ps), []. intros s <-.
  unfold self_test_prompts. by rewrite log_nil.
Qed.

Lemma console_only_bind {A B} (m : M A) (f : A -> M B) :
  console_only m -> (forall a, console_only (f a)) -> console_only (m ≫= f).
Proof.
  intros Hm Hf. apply console_only_intro. intros ps.
  destruct (console_only_elim m Hm ps) as (v & ls & Hv).
  destruct v as [a | e].
  - destruct (console_only_elim (f a) (Hf a) ps) as (v' & ls' & Hv').
    exists v', (ls ++ ls'). intros s Hs.
    unfold mbind, M_bind. rewrite (Hv s Hs), Hv' by (simpl; exact Hs).
    by rewrite log_log.
  - exists (Raise e), ls. intros s Hs.
    unfold mbind, M_bind. by rewrite (Hv s Hs).
Qed.

Lemma console_only_try_except {A} (body : M A) (handler : exn -> M A) :
  console_only body -> (forall e, console_only (handler e)) ->
  console_only (try_except body handler).
Proof.
  intros Hm Hf. apply console_only_intro. intros ps.
  destruct (console_only_elim body Hm ps) as (v & ls & Hv).
  destruct v as [a | e].
  - exists (Ok a), ls. intros s Hs.
    unfold try_except. by rewrite (Hv s Hs).
  - destruct (console_only_elim (handler e) (Hf e) ps) as (v' & ls' & Hv').
    exists v', (ls ++ ls'). intros s Hs.
    unfold try_except. rewrite (Hv s Hs), Hv' by (simpl; exact Hs).
    by rewrite log_log.
Qed.

Lemma console_only_foldM {A B} (f : B -> A -> M B) (l : list A) :
  (forall b a, console_only (f b a)) -> forall b, console_only (foldM f l b).
Proof.
  intros Hf. induction l as [| a l IH]; intros b; simpl.
  - apply console_only_ret.
  - apply console_only_bind; auto.
Qed.

Lemma console_only_for_each {A} (f : A -> M unit) (l : list A) :
  (forall a, console_only (f a)) -> console_only (for_each f l).
Proof.
  intros Hf. induction l as [| a l IH]; simpl.
  - apply console_only_ret.
  - apply console_only_bind; auto.
Qed.

Create HintDb console_only.
#[global] Hint Resolve console_only_ret console_only_raise console_only_lift
  console_only_print console_only_self_test_prompts : console_only.

Ltac console_only :=
  repeat first
    [ progress intros
    | apply console_only_bind
    | apply console_only_try_except
    | apply console_only_foldM
    | apply console_only_for_each
    | solve [ auto with console_only ]
    | match goal with
      | |- console_only (if ?b then _ else _) => destruct b
      | |- console_only (match ?x with _ => _ end) => destruct x
      end ].

Lemma console_only_run_inference w m p : console_only (run_inference w m p).
Proof. unfold run_inference. console_only. Qed.

Lemma console_only_benchmark_prompt w m l tp :
  console_only (benchmark_prompt w m l tp).
Proof.
  unfold benchmark_prompt.
  apply console_only_bind; [ apply console_only_print | intros _ ].
  apply console_only_bind; [ apply console_only_run_inference | ].
  intros [[[response inference_time] tps] metrics]. console_only.
Qed.

Lemma console_only_benchmark_model w m : console_only (benchmark_model w m).
Proof.
  unfold benchmark_model.
  apply console_only_bind; [ apply console_only_print | intros _ ].
  apply console_only_bind; [ apply console_only_self_test_prompts | intros ps ].
  apply console_only_bind.
  - apply console_only_foldM. intros. apply console_only_benchmark_prompt.
  - console_only.
Qed.

(** * Properties of [run_inference] *)

Arguments is_class : simpl never.
Arguments is_Exception : simpl never.
Arguments PyNum.of_Q : simpl never.
Arguments PyNum.py_round : simpl never.
Arguments PyNum.add : simpl never.
Arguments PyNum.sub : simpl never.
Arguments PyNum.div : simpl never.
Arguments PyNum.mul : simpl never.
Arguments PyNum.ltb : simpl never.
Arguments PyNum.leb : simpl never.
Arguments PyNum.of_int : simpl never.
Arguments PyNum.int_div : simpl never.
Arguments MB : simpl never.
Arguments time_time : simpl never.
Arguments PyStr.u : simpl never.
Arguments PyStr.strip : simpl never.
Arguments count_tokens : simpl never.

Ltac run_monad :=
  unfold mbind, M_bind, mret, M_ret, print, lift, raise, try_except,
    self_results, self_test_prompts, read_disk, set_disk, results_append in *;
  simpl in *.

Lemma is_success_not_failure metrics msg :
  is_success metrics -> ~ is_failure metrics msg.
Proof.
  intros [Herr _] ->. by rewrite lookup_singleton_eq in Herr.
Qed.

Lemma is_success_success_metrics t n q m len :
  is_success (success_metrics t n q m len).
Proof.
  split; [ reflexivity | ].
  repeat constructor; eexists; reflexivity.
Qed.

Lemma error_metrics_not_success msg : ~ is_success (error_metrics msg).
Proof.
  intros [Herr _]. unfold error_metrics in Herr.
  by rewrite lookup_singleton_eq in Herr.
Qed.

Lemma run_inference_classified w model prompt s :
  classified (invocations w model prompt) (fst (run_inference w model prompt s)).
Proof.
  unfold run_inference, classified.
  generalize (invocations w model prompt).
  intros [mb st pr en ma]. unfold raised_in_try. run_monad.
  assert (Hfail : forall msg,
             is_failure (error_metrics msg) msg /\ ~ is_success (error_metrics msg)).
  { intros msg. split; [ reflexivity | apply error_metrics_not_success ]. }
  destruct mb as [rss0 | e0]; simpl; [ | by left ].
  destruct pr as [[rc out err] | e]; simpl.
  - destruct (Z.eqb_spec rc 0) as [-> | Hrc]; simpl.
    + destruct ma as [rss1 | e]; simpl.
      * left. eexists. split; [ reflexivity | ]. split; [ reflexivity | ].
        split; [ apply is_success_success_metrics | ].
        intros msg. apply is_success_not_failure, is_success_success_metrics.
      * destruct (is_class TimeoutExpired e) eqn:Ht; simpl.
        { right. eexists. destruct (Hfail (PyStr.u "Timeout after 120 seconds")).
          repeat (split; [ done | ]).
          right; left. exists e. eauto 10. }
        destruct (is_Exception e) eqn:He; simpl.
        { right. exists (str e). destruct (Hfail (str e)).
          repeat (split; [ done | ]).
          right; right. exists e. eauto 10. }
        right. split; [ done | ]. right. eauto.
    + right. exists err. destruct (Hfail err).
      repeat (split; [ done | ]).
      left. eexists; repeat split; eauto.
  - destruct (is_class TimeoutExpired e) eqn:Ht; simpl.
    { right. eexists. destruct (Hfail (PyStr.u "Timeout after 120 seconds")).
      repeat (split; [ done | ]).
      right; left. exists e. eauto. }
    destruct (is_Exception e) eqn:He; simpl.
    { right. exists (str e). destruct (Hfail (str e)).
      repeat (split; [ done | ]).
      right; right. exists e. eauto 10. }
    right. eauto.
Qed.

Lemma no_error_iff metrics : no_error metrics = true <-> metrics !! "error" = None.
Proof. unfold no_error. by rewrite bool_decide_eq_true. Qed.

Lemma no_error_error_metrics msg : no_error (error_metrics msg) = false.
Proof.
  apply not_true_iff_false. rewrite no_error_iff.
  unfold error_metrics. by rewrite lookup_singleton_eq.
Qed.

(** What a call that returns without an error has computed. *)
Lemma run_inference_success w model prompt s response total_time tps metrics s' :
  run_inference w model prompt s = (Ok (response, total_time, tps, metrics), s') ->
  no_error metrics = true ->
  let inv := invocations w model prompt in
  let tokens := Z.of_nat (count_tokens response) in
  exists cp rss0 rss1,
    process inv = Exited cp /\ returncode cp = 0 /\
    memory_before inv = Ok rss0 /\ memory_after inv = Ok rss1 /\
    response = PyStr.strip (stdout cp) /\
    total_time = PyNum.sub (time_time (end_time inv)) (time_time (start_time inv)) /\
    tps = (if PyNum.ltb (PyNum.Fin 0) total_time
           then PyNum.Float (PyNum.div (PyNum.of_int tokens) total_time)
           else PyNum.Int 0) /\
    metrics = success_metrics total_time tokens tps
                (PyNum.sub (MB rss1) (MB rss0))
                (Z.of_nat (length response)).
Proof.
  unfold run_inference.
  generalize (invocations w model prompt).
  intros [mb st pr en ma]. run_monad.
  destruct mb as [rss0 | e0]; simpl; [ | discriminate ].
  assert (Herr : forall msg r t q m (s1 s2 : state),
             (Ok (([] : text), PyNum.Fin 0, PyNum.Float (PyNum.Fin 0),
                  error_metrics msg), s1)
             = (Ok (r, t, q, m), s2) ->
             no_error m = true -> False).
  { intros msg r t q m s1 s2 [= <- <- <- <- <-] Hm.
    by rewrite no_error_error_metrics in Hm. }
  destruct pr as [[rc out err] | e]; simpl.
  - destruct (Z.eqb_spec rc 0) as [-> | Hrc]; simpl.
    + destruct ma as [rss1 | e]; simpl.
      * intros [= <- <- <- <- <-] _.
        exists {| returncode := 0; stdout := out; stderr := err |}, rss0, rss1.
        repeat split; reflexivity.
      * destruct (is_class TimeoutExpired e); simpl;
          [ intros H1 H2; destruct (Herr _ _ _ _ _ _ _ H1 H2) | ].
        destruct (is_Exception e); simpl;
          [ intros H1 H2; destruct (Herr _ _ _ _ _ _ _ H1 H2) | discriminate ].
    + intros H1 H2; destruct (Herr _ _ _ _ _ _ _ H1 H2).
  - destruct (is_class TimeoutExpired e); simpl;
      [ intros H1 H2; destruct (Herr _ _ _ _ _ _ _ H1 H2) | ].
    destruct (is_Exception e); simpl;
      [ intros H1 H2; destruct (Herr _ _ _ _ _ _ _ H1 H2) | discriminate ].
Qed.

(** * Properties of [benchmark_model] *)

Arguments inference : simpl never.

Lemma run_inference_value w model prompt s :
  run_inference w model prompt s =
  (inference w model prompt, log s [TestingPrompt (PyStr.take 50 prompt)]).
Proof.
  unfold inference, value_of, run_inference.
  generalize (invocations w model prompt).
  intros [mb st pr en ma]. run_monad.
  destruct mb as [rss0 | e0]; simpl; [ | reflexivity ].
  destruct pr as [[rc out err] | e]; simpl.
  - destruct (negb (rc =? 0)); simpl; [ reflexivity | ].
    destruct ma as [rss1 | e]; simpl; [ reflexivity | ].
    destruct (is_class TimeoutExpired e); simpl; [ reflexivity | ].
    destruct (is_Exception e); reflexivity.
  - destruct (is_class TimeoutExpired e); simpl; [ reflexivity | ].
    destruct (is_Exception e); reflexivity.
Qed.

Lemma benchmark_prompt_step w model l tp s :
  exists ls,
    benchmark_prompt w model l tp s =
    (match inference w model (tp_prompt tp) with
     | Ok v => Ok (next_locals l tp v)
     | Raise e => Raise e
     end, log s ls).
Proof.
  unfold benchmark_prompt.
  unfold mbind at 1. unfold M_bind at 1. unfold print at 1.
  unfold mbind at 1. unfold M_bind at 1. rewrite run_inference_value.
  destruct (inference w model (tp_prompt tp))
    as [[[[response inference_time] tps] metrics] | e].
  - unfold next_locals. destruct (no_error metrics); run_monad;
      eexists; rewrite <- !app_assoc; reflexivity.
  - eexists. unfold log; simpl. rewrite <- app_assoc. reflexivity.
Qed.

Lemma foldM_benchmark_prompt w m ps :
  forall l s l' s',
    foldM (benchmark_prompt w m) ps l s = (Ok l', s') ->
    let runs := successful_runs w m ps in
    total_tps l' = fold_left PyNum.add (throughputs runs) (total_tps l) /\
    total_time l' = fold_left PyNum.add (elapsed runs) (total_time l) /\
    successful_tests l' = (successful_tests l + length runs)%nat /\
    (exists new,
        model_results l' =
        {| model := model (model_results l);
           timestamp := timestamp (model_results l);
           prompts := prompts (model_results l) ++ new;
           average_tps := average_tps (model_results l);
           average_time := average_time (model_results l);
           success_rate := success_rate (model_results l) |} /\
        Forall2 (recorded w m) ps new).
Proof.
  induction ps as [| tp ps IH]; intros l s l' s'; simpl.
  - intros [= <- <-]. simpl. repeat split; try lia.
    exists []. rewrite app_nil_r. split; [ by destruct (model_results l) | constructor ].
  - unfold mbind at 1. unfold M_bind at 1.
    destruct (benchmark_prompt_step w m l tp s) as [ls ->].
    destruct (inference w m (tp_prompt tp))
      as [[[[response inference_time] tps] metrics] | e] eqn:Hinf;
      [ | discriminate ].
    intros Hfold. apply IH in Hfold. clear IH.
    destruct Hfold as (Htps & Htime & Hn & new & Hres & Hnew).
    unfold throughputs, elapsed in *. simpl in *.
    destruct (no_error metrics); simpl in *.
    + repeat split; try assumption.
      * lia.
      * eexists (_ :: new). rewrite Hres, <- app_assoc. split; [ reflexivity | ].
        constructor; [ | exact Hnew ].
        exists response, inference_time, tps. repeat split; assumption.
    + repeat split; try assumption.
      eexists (_ :: new). rewrite Hres, <- app_assoc. split; [ reflexivity | ].
      constructor; [ | exact Hnew ].
      exists response, inference_time, tps. repeat split; assumption.
Qed.

Lemma bind_Ok_inv {A B} (c : M A) (f : A -> M B) s b s' :
  (c ≫= f) s = (Ok b, s') ->
  exists a s1, c s = (Ok a, s1) /\ f a s1 = (Ok b, s').
Proof.
  unfold mbind, M_bind. destruct (c s) as [[a | e] s1]; [ eauto | discriminate ].
Qed.

Lemma console_only_test_prompts {A} (c : M A) s v s' :
  console_only c -> c s = (v, s') ->
  exists ls, s' = log s ls.
Proof. intros Hc. rewrite Hc. intros [= <- <-]. eauto. Qed.

(** ** The report of a model *)

Lemma benchmark_model_report w m s r s' :
  benchmark_model w m s = (Ok r, s') ->
  let ps := test_prompts s in
  let runs := successful_runs w m ps in
  model r = m /\ timestamp r = now_iso w /\
  Forall2 (recorded w m) ps (prompts r) /\
  match runs with
  | [] =>
      average_tps r = PyNum.Fin 0 /\ average_time r = PyNum.Fin 0 /\
      success_rate r = None
  | _ =>
      average_tps r = PyNum.py_round (mean (throughputs runs)) 2 /\
      average_time r = PyNum.py_round (mean (elapsed runs)) 2 /\
      success_rate r =
        Some (PyNum.py_round
                (PyNum.int_div (Z.of_nat (length runs)) (Z.of_nat (length ps))) 2)
  end.
Proof.
  unfold benchmark_model. intros H.
  apply bind_Ok_inv in H as (u & s1 & H1 & H).
  apply bind_Ok_inv in H as (ps & s2 & H2 & H).
  apply bind_Ok_inv in H as (l & s3 & H3 & H).
  apply bind_Ok_inv in H as (ps' & s4 & H4 & H).
  unfold print in H1. unfold self_test_prompts in H2, H4.
  unfold mret, M_ret in H. simplify_eq. simpl in *.
  pose proof (console_only_test_prompts _ _ _ _
                (console_only_foldM _ _ (console_only_benchmark_prompt w m) _) H3)
    as [ls ->].
  apply foldM_benchmark_prompt in H3 as (Htps & Htime & Hn & new & Hres & Hnew).
  simpl in *.
  unfold calculate_averages. rewrite Hn, Hres. simpl.
  destruct (successful_runs w m (test_prompts s)) as [| run runs] eqn:Hruns.
  - simpl. repeat split; assumption.
  - cbn [length Nat.ltb Nat.leb].
    cbn [model timestamp prompts average_tps average_time success_rate].
    unfold mean, fsum. rewrite Htps, Htime.
    unfold throughputs, elapsed. rewrite !length_map.
    repeat split; assumption.
Qed.

(** * Properties of the numbers *)

Section Rounding.

Local Open Scope Q_scope.
Import PyNum.

(** Rounding stays within half a unit. *)
Lemma round_half_even_near x :
  x - (1 # 2) <= inject_Z (round_half_even x) <= x + (1 # 2).
Proof.
  unfold round_half_even.
  pose proof (Qfloor_le x) as Hlo. pose proof (Qlt_floor x) as Hhi.
  rewrite inject_Z_plus in Hhi. change (inject_Z 1) with 1 in Hhi.
  destruct (x - inject_Z (Qfloor x) ?= 1 # 2) eqn:Hc.
  - apply Qeq_alt in Hc.
    destruct (Z.even (Qfloor x));
      rewrite ?inject_Z_plus; change (inject_Z 1) with 1; split; lra.
  - apply Qlt_alt in Hc. split; lra.
  - apply Qgt_alt in Hc.
    rewrite inject_Z_plus. change (inject_Z 1) with 1. split; lra.
Qed.

(** Rounding never crosses an integer. *)
Lemma round_half_even_between (a b : Z) x :
  inject_Z a <= x <= inject_Z b ->
  (a <= round_half_even x <= b)%Z.
Proof.
  intros [Ha Hb].
  pose proof (Qfloor_le x) as Hlo. pose proof (Qlt_floor x) as Hhi.
  assert (Haf : (a <= Qfloor x)%Z).
  { apply Z.lt_succ_r. rewrite <- Z.add_1_r. rewrite Zlt_Qlt. lra. }
  assert (Hfb : (Qfloor x <= b)%Z).
  { rewrite Zle_Qle. lra. }
  unfold round_half_even.
  assert (Hup : inject_Z (Qfloor x) < x -> (Qfloor x + 1 <= b)%Z).
  { intros Hlt. apply Z.lt_succ_r. rewrite <- Z.add_1_r.
    apply Z.add_lt_mono_r. rewrite Zlt_Qlt. lra. }
  destruct (x - inject_Z (Qfloor x) ?= 1 # 2) eqn:Hc.
  - apply Qeq_alt in Hc.
    destruct (Z.even (Qfloor x)); [ lia | ].
    split; [ lia | apply Hup; lra ].
  - lia.
  - apply Qgt_alt in Hc. split; [ lia | apply Hup; lra ].
Qed.

(** Below 1 the spacing of the floats is the inverse of an integer. *)
Lemma ilog2_unit q : 0 < q -> q <= 1 -> (ilog2 q <= 0)%Z.
Proof.
  intros Hpos Hle. unfold ilog2.
  assert (Hnum : (0 < Qnum q)%Z).
  { unfold Qlt in Hpos. simpl in Hpos. lia. }
  assert (Hnd : (Qnum q <= Zpos (Qden q))%Z).
  { unfold Qle in Hle. simpl in Hle. lia. }
  pose proof (Z.log2_le_mono _ _ Hnd) as Hlog.
  destruct (Qle_bool _ q); lia.
Qed.

Lemma round_half_even_comp x y : x == y -> round_half_even x = round_half_even y.
Proof.
  intros H. unfold round_half_even.
  rewrite (Qfloor_comp _ _ H).
  assert (Hc : (x - inject_Z (Qfloor y) ?= 1 # 2) = (y - inject_Z (Qfloor y) ?= 1 # 2)).
  { apply Qcompare_comp; [ rewrite H | ]; reflexivity. }
  rewrite Hc. reflexivity.
Qed.

Lemma nearest_unit q : 0 < q -> q <= 1 -> 0 <= nearest q <= 1.
Proof.
  intros Hpos Hle. unfold nearest.
  pose proof (ilog2_unit q Hpos Hle) as He.
  set (c := (Z.max (ilog2 q) (-1022) - 52)%Z).
  assert (Hc : (c < 0)%Z) by (unfold c; lia).
  unfold pow2. destruct (Z.leb_spec 0 c) as [? | _]; [ lia | ].
  assert (Hp : (0 < 2 ^ (- c))%Z) by (apply Z.pow_pos_nonneg; lia).
  generalize dependent (2 ^ (- c))%Z. intros P Hp.
  assert (HP : 1 # Z.to_pos P == / inject_Z P).
  { rewrite (Qmake_Qdiv 1 (Z.to_pos P)), Z2Pos.id by exact Hp.
    unfold Qdiv. apply Qmult_1_l. }
  assert (HPQ : 0 < inject_Z P) by (rewrite <- (Zlt_Qlt 0); exact Hp).
  assert (Hk : round_half_even (q / (1 # Z.to_pos P))
               = round_half_even (q * inject_Z P)).
  { apply round_half_even_comp. rewrite HP. unfold Qdiv.
    by rewrite Qinv_involutive. }
  rewrite Hk.
  destruct (round_half_even_between 0 P (q * inject_Z P)) as [H0 H1].
  { split.
    - change (inject_Z 0) with 0. apply Qmult_le_0_compat; lra.
    - rewrite <- (Qmult_1_l (inject_Z P)) at 2. apply Qmult_le_compat_r; lra. }
  generalize dependent (round_half_even (q * inject_Z P)). intros k _ H0 H1.
  rewrite Zle_Qle in H0, H1. change (inject_Z 0) with 0 in H0.
  rewrite HP. split.
  - apply Qmult_le_0_compat; [ exact H0 | ].
    apply Qlt_le_weak, Qinv_lt_0_compat, HPQ.
  - apply Qle_shift_div_r; [ exact HPQ | ]. lra.
Qed.

Lemma pow2_1024_gt_1 : 1 < pow2 1024.
Proof. vm_compute. reflexivity. Qed.

(** A rational of the unit interval is rounded to a float of the unit
    interval. *)
Lemma of_Q_unit q :
  0 <= q <= 1 -> exists r, of_Q q = Fin r /\ 0 <= r <= 1.
Proof.
  intros [H0 H1]. unfold of_Q.
  destruct (q ?= 0) eqn:Hc.
  - exists 0. split; [ reflexivity | lra ].
  - apply Qlt_alt in Hc. lra.
  - apply Qgt_alt in Hc.
    destruct (nearest_unit q Hc H1) as [Hn0 Hn1].
    destruct (Qle_bool (pow2 1024) (nearest q)) eqn:Hov.
    + apply Qle_bool_iff in Hov. pose proof pow2_1024_gt_1. lra.
    + exists (Qred (nearest q)). split; [ reflexivity | ].
      rewrite Qred_correct. split; assumption.
Qed.

Lemma int_div_unit (k n : Z) :
  (0 < k <= n)%Z -> exists r, int_div k n = Fin r /\ 0 <= r <= 1.
Proof.
  intros [Hk Hn]. unfold int_div. apply of_Q_unit.
  assert (HnQ : 0 < inject_Z n) by (rewrite <- (Zlt_Qlt 0); lia).
  split.
  - apply Qle_shift_div_l; [ exact HnQ | ].
    rewrite Qmult_0_l, <- (Zle_Qle 0). lia.
  - apply Qle_shift_div_r; [ exact HnQ | ].
    rewrite Qmult_1_l, <- Zle_Qle. exact Hn.
Qed.

Lemma pow10_pos n : (0 < 10 ^ Z.of_nat n)%Z.
Proof. apply Z.pow_pos_nonneg; lia. Qed.

(** Rounding a float of the unit interval to decimals stays in it. *)
Lemma py_round_unit r n :
  0 <= r <= 1 -> exists r', py_round (Fin r) n = Fin r' /\ 0 <= r' <= 1.
Proof.
  intros [H0 H1]. unfold py_round.
  pose proof (pow10_pos n) as Hp.
  set (p := (10 ^ Z.of_nat n)%Z) in *.
  assert (HpQ : 0 < inject_Z p) by (rewrite <- (Zlt_Qlt 0); exact Hp).
  destruct (round_half_even_between 0 p (r * inject_Z p)) as [Hk0 Hk1].
  { split.
    - change (inject_Z 0) with 0. apply Qmult_le_0_compat; lra.
    - rewrite <- (Qmult_1_l (inject_Z p)) at 2. apply Qmult_le_compat_r; lra. }
  set (k := round_half_even (r * inject_Z p)) in *.
  destruct (Z.eqb_spec k 0) as [_ | Hk].
  - exists 0. split; [ | lra ].
    unfold zero, signbit. destruct (r ?= 0) eqn:Hc; try reflexivity.
    apply Qlt_alt in Hc. lra.
  - apply of_Q_unit. rewrite Zle_Qle in Hk0, Hk1. change (inject_Z 0) with 0 in Hk0.
    split.
    + apply Qle_shift_div_l; [ exact HpQ | ]. lra.
    + apply Qle_shift_div_r; [ exact HpQ | ]. lra.
Qed.

(** [round(x, 2)] is the float of a number of hundredths within half a
    hundredth of [x]. *)
Lemma py_round_cents x : rounded_to_cents x (py_round x 2).
Proof.
  destruct x as [q | | | |]; try reflexivity.
  unfold rounded_to_cents, py_round.
  change (10 ^ Z.of_nat 2)%Z with 100%Z. change (inject_Z 100) with 100.
  exists (round_half_even (q * 100)). split; [ | reflexivity ].
  pose proof (round_half_even_near (q * 100)) as [H1 H2].
  split.
  - apply Qle_shift_div_l; lra.
  - apply Qle_shift_div_r; lra.
Qed.

(** ** The order of the floats *)

Lemma Qcompare_Lt_iff a b : (a ?= b) = Lt <-> a < b.
Proof. symmetry. apply Qlt_alt. Qed.

Ltac order_cases :=
  repeat match goal with
         | x : float |- _ => destruct x
         end;
  unfold eqb; unfold ltb, leb, is_nan; simpl;
  repeat match goal with
         | |- context [ ?a ?= ?b ] =>
             let E := fresh "E" in
             destruct (a ?= b) eqn:E;
             [ apply Qeq_alt in E | apply Qlt_alt in E | apply Qgt_alt in E ]
         | |- context [ Qle_bool ?a ?b ] =>
             let E := fresh "E" in
             destruct (Qle_bool a b) eqn:E;
             [ apply Qle_bool_iff in E
             | apply not_true_iff_false in E; rewrite Qle_bool_iff in E ]
         end;
  simpl; intros; try reflexivity; try discriminate; try lra.

Lemma ltb_leb x y : ltb x y = true -> leb x y = true.
Proof. revert x y. intros x y. order_cases. Qed.

Lemma ltb_false_leb x y :
  is_nan x = false -> is_nan y = false -> ltb x y = false -> leb y x = true.
Proof. order_cases. Qed.

Lemma leb_trans x y z : leb x y = true -> leb y z = true -> leb x z = true.
Proof. order_cases. Qed.

Lemma ltb_not_nan x y : ltb x y = true -> is_nan x = false /\ is_nan y = false.
Proof. order_cases; split; reflexivity. Qed.

Lemma ltb_eqb_absurd x y q :
  ltb x y = true -> eqb x q = true -> eqb y q = true -> False.
Proof. order_cases. Qed.

Lemma ltb_irrefl x : ltb x x = false.
Proof. order_cases. Qed.

End Rounding.

Lemma successful_runs_length w m ps :
  (length (successful_runs w m ps) <= length ps)%nat.
Proof.
  induction ps as [| tp ps IH]; simpl; [ lia | ].
  rewrite length_app.
  destruct (inference w m (tp_prompt tp)) as [[[[? ?] ?] metrics] | ?];
    [ destruct (no_error metrics) | ]; simpl; lia.
Qed.

Lemma inference_run w m p v :
  inference w m p = Ok v ->
  exists s', run_inference w m p (base []) = (Ok v, s').
Proof.
  unfold inference, value_of.
  destruct (run_inference w m p (base [])) as [r s'] eqn:E. simpl.
  intros ->. eauto.
Qed.

(** * The claims *)

(** ** C1: tokens per second of a successful inference *)

(** C1, as amended.  When [run_inference] returns without error, the
    tokens-per-second value it returns is the number of
    whitespace-delimited tokens of the response divided by the elapsed
    seconds when these are positive, and 0 otherwise; the metrics dictionary
    records that token count, and the throughput and the elapsed time each
    rounded to two decimals. *)
Theorem tokens_per_second_of_success
    w model prompt s response total tps metrics s' :
  run_inference w model prompt s = (Ok (response, total, tps, metrics), s') ->
  no_error metrics = true ->
  let tokens := Z.of_nat (count_tokens response) in
  (PyNum.ltb (PyNum.Fin 0) total = true ->
   tps = PyNum.Float (PyNum.div (PyNum.of_int tokens) total)) /\
  (PyNum.ltb (PyNum.Fin 0) total = false -> tps = PyNum.Int 0) /\
  metrics !! "tokens_generated" = Some (VNum (PyNum.Int tokens)) /\
  metrics !! "tokens_per_second" = Some (VNum (PyNum.round_number tps 2)) /\
  metrics !! "total_time" = Some (VNum (PyNum.Float (PyNum.py_round total 2))).
Proof.
  intros Hrun Hok.
  destruct (run_inference_success _ _ _ _ _ _ _ _ _ Hrun Hok)
    as (cp & rss0 & rss1 & _ & _ & _ & _ & _ & _ & Htps & Hm).
  cbv zeta. split_and!.
  - intros Hpos. by rewrite Hpos in Htps.
  - intros Hneg. by rewrite Hneg in Htps.
  - by rewrite Hm.
  - by rewrite Hm.
  - by rewrite Hm.
Qed.

(** One token after forty seconds: the throughput 0.025 is recorded as
    0.03. *)
Lemma tokens_per_second_of_success_witness :
  let tps := PyNum.Float (PyNum.div (PyNum.of_int 1) (PyNum.Fin 40)) in
  let metrics := success_metrics (PyNum.Fin 40) 1 tps (PyNum.Fin 1) 1 in
  PyNum.ltb (PyNum.Fin 0) (PyNum.Fin 40) = true /\
  tps = PyNum.Float
          (PyNum.div (PyNum.of_int (Z.of_nat (count_tokens (PyStr.u "a"))))
             (PyNum.Fin 40)) /\
  metrics !! "tokens_per_second" = Some (VNum (PyNum.round_number tps 2)) /\
  PyNum.round_number tps 2 = PyNum.Float (PyNum.int_div 3 100).
Proof.
  cbv zeta.
  pose proof (tokens_per_second_of_success forty_seconds "m" "Say a." fresh
                "a" (PyNum.Fin 40)
                (PyNum.Float (PyNum.div (PyNum.of_int 1) (PyNum.Fin 40)))
                (success_metrics (PyNum.Fin 40) 1
                   (PyNum.Float (PyNum.div (PyNum.of_int 1) (PyNum.Fin 40)))
                   (PyNum.Fin 1) 1)
                (log fresh [TestingPrompt (PyStr.u "Say a.")]))
    as H.
  destruct H as (H1 & _ & _ & H2 & _);
    [ vm_compute; reflexivity | vm_compute; reflexivity | ].
  split; [ vm_compute; reflexivity | ].
  split; [ apply H1; vm_compute; reflexivity | ].
  split; [ exact H2 | vm_compute; reflexivity ].
Defined.

(** C1 fails as stated.  In the world [slow_word] the response is the one
    word ["a"] after 3 seconds: the metrics record 1 token, 3.0 seconds and
    0.33 tokens per second, and 0.33 is not 1 / 3.0. *)
Lemma stored_tokens_per_second_is_rounded :
  let tps := PyNum.Float (PyNum.div (PyNum.of_int 1) (PyNum.Fin 3)) in
  let metrics := success_metrics (PyNum.Fin 3) 1 tps (PyNum.Fin 1) 1 in
  fst (run_inference slow_word "m" "Say a." fresh)
    = Ok (PyStr.u "a", PyNum.Fin 3, tps, metrics) /\
  no_error metrics = true /\
  metrics !! "tokens_generated" = Some (VNum (PyNum.Int 1)) /\
  metrics !! "total_time" = Some (VNum (PyNum.Float (PyNum.Fin 3))) /\
  metrics !! "tokens_per_second"
    = Some (VNum (PyNum.Float (PyNum.int_div 33 100))) /\
  PyNum.ltb (PyNum.Fin 0) (PyNum.Fin 3) = true /\
  PyNum.eqb (PyNum.int_div 33 100)
    (PyNum.div (PyNum.of_int 1) (PyNum.Fin 3)) = false.
Proof. cbv zeta. split_and!; vm_compute; reflexivity. Qed.

(** ** C4: the outcomes of [run_inference] *)

(** C4, as amended.  A call of [run_inference] that returns, returns exactly
    one of: a success, with the five metrics and no error, after the backend
    exited with status 0; or a failure, with an error text and no metrics,
    an empty response and zero time and throughput, where the text is the
    backend's stderr after a non-zero exit, ["Timeout after 120 seconds"]
    after a [TimeoutExpired], and [str(e)] after any other [Exception]
    raised inside the [try] block.  A call raises only what the first memory
    reading raises, before the [try] block, or what is raised inside the
    block and is not an [Exception] ([KeyboardInterrupt]). *)
Theorem run_inference_outcome w model prompt s :
  classified (invocations w model prompt) (fst (run_inference w model prompt s)).
Proof. apply run_inference_classified. Qed.

Lemma run_inference_outcome_witness :
  classified times_out
    (Ok (([] : text), PyNum.Fin 0, PyNum.Float (PyNum.Fin 0),
         error_metrics "Timeout after 120 seconds")).
Proof. exact (run_inference_outcome scenario_B "m2" "Say a." fresh). Defined.

(** C4 fails as stated: when the user interrupts the backend call,
    [run_inference] propagates [KeyboardInterrupt] to its caller. *)
Lemma run_inference_propagates_interrupt :
  fst (run_inference interrupted_world "m" "Say a." fresh)
  = Raise (Exn KeyboardInterrupt "").
Proof. vm_compute. reflexivity. Qed.

(** ** C2: the averages of a report *)

(** C2, as amended.  In every report [benchmark_model] returns, [average_tps]
    is the arithmetic mean, rounded to two decimals, of the tokens-per-second
    values [run_inference] returned (not the rounded ones it recorded) for
    the prompts that ran without error, and [average_time] is the rounded
    mean of their elapsed seconds; with no such prompt both are 0.  The mean
    is the float sum, from 0.0 and in the order of the prompts, divided by
    the count. *)
Theorem averages_of_report w m s r s' :
  benchmark_model w m s = (Ok r, s') ->
  let runs := successful_runs w m (test_prompts s) in
  match runs with
  | [] => average_tps r = PyNum.Fin 0 /\ average_time r = PyNum.Fin 0
  | _ =>
      average_tps r = PyNum.py_round (mean (throughputs runs)) 2 /\
      average_time r = PyNum.py_round (mean (elapsed runs)) 2
  end.
Proof.
  intros H. apply benchmark_model_report in H as (_ & _ & _ & H).
  simpl. destruct (successful_runs w m (test_prompts s)); tauto.
Qed.

(** Scenario A: throughputs 10, 20 and 30 give an average of 20.0.  Three
    answers of one token after forty seconds each give an average of
    0.03. *)
Lemma averages_of_report_witness :
  throughputs (successful_runs scenario_A "m1" default_prompts)
    = [PyNum.Fin 10; PyNum.Fin 20; PyNum.Fin 30] /\
  average_tps (report_of scenario_A "m1" fresh) = PyNum.Fin 20 /\
  average_tps (report_of forty_seconds "m" fresh) = PyNum.int_div 3 100.
Proof.
  pose proof (averages_of_report scenario_A "m1" fresh
                (report_of scenario_A "m1" fresh)
                (snd (benchmark_model scenario_A "m1" fresh)))
    as H.
  split; [ vm_compute; reflexivity | ].
  split; [ | vm_compute; reflexivity ].
  lazy zeta in H.
  destruct (successful_runs scenario_A "m1" (test_prompts fresh)) eqn:E;
    [ vm_compute in E; discriminate E | ].
  rewrite <- E in H. destruct H as [H _]; [ vm_compute; reflexivity | ].
  rewrite H. vm_compute. reflexivity.
Defined.

(** C2 fails as stated.  In the world [thirds] the three prompts succeed at
    1/3, 1/3 and 2/3 tokens per second, recorded as 0.33, 0.33 and 0.67; the
    report's [average_tps] is 0.44, which is neither the mean of the former
    nor the mean of the latter. *)
Lemma average_tps_is_not_the_mean :
  let r := report_of thirds "m" fresh in
  fst (benchmark_model thirds "m" fresh) = Ok r /\
  throughputs (successful_runs thirds "m" default_prompts)
    = [PyNum.int_div 1 3; PyNum.int_div 1 3; PyNum.int_div 2 3] /\
  recorded_tps r
    = [Some (VNum (PyNum.Float (PyNum.int_div 33 100)));
       Some (VNum (PyNum.Float (PyNum.int_div 33 100)));
       Some (VNum (PyNum.Float (PyNum.int_div 67 100)))] /\
  average_tps r = PyNum.int_div 44 100 /\
  PyNum.eqb (average_tps r)
    (mean [PyNum.int_div 1 3; PyNum.int_div 1 3; PyNum.int_div 2 3]) = false /\
  PyNum.eqb (average_tps r)
    (mean [PyNum.int_div 33 100; PyNum.int_div 33 100; PyNum.int_div 67 100])
    = false.
Proof. cbv zeta. split_and!; vm_compute; reflexivity. Qed.

(** ** C3: the success rate of a report *)

(** C3, as amended.  In every report for which at least one prompt ran
    without error, [success_rate] is the number of such prompts divided by
    the number of prompts, rounded to two decimals, and lies in [0, 1]. *)
Theorem success_rate_of_report w m s r s' :
  benchmark_model w m s = (Ok r, s') ->
  let successes := length (successful_runs w m (test_prompts s)) in
  let total := length (test_prompts s) in
  (0 < successes)%nat ->
  exists q,
    success_rate r = Some q /\
    q = PyNum.py_round (PyNum.int_div (Z.of_nat successes) (Z.of_nat total)) 2 /\
    PyNum.leb (PyNum.Fin 0) q = true /\ PyNum.leb q (PyNum.Fin 1) = true.
Proof.
  intros H successes total Hpos.
  apply benchmark_model_report in H as (_ & _ & _ & H). cbv zeta in H.
  pose proof (successful_runs_length w m (test_prompts s)) as Hle.
  fold successes total in Hle, H.
  assert (Hrate : success_rate r =
            Some (PyNum.py_round
                    (PyNum.int_div (Z.of_nat successes) (Z.of_nat total)) 2)).
  { subst successes.
    destruct (successful_runs w m (test_prompts s));
      [ simpl in Hpos; lia | tauto ]. }
  eexists. split; [ exact Hrate | ]. split; [ reflexivity | ].
  destruct (int_div_unit (Z.of_nat successes) (Z.of_nat total))
    as (x & Hx & Hb); [ lia | ].
  rewrite Hx.
  destruct (py_round_unit x 2 Hb) as (y & Hy & Hy0 & Hy1). rewrite Hy.
  unfold PyNum.leb. split; by apply Qle_bool_iff.
Qed.

Lemma success_rate_of_report_witness :
  exists q,
    success_rate (report_of one_of_three "m" fresh) = Some q /\
    q = PyNum.py_round
          (PyNum.int_div
             (Z.of_nat (length (successful_runs one_of_three "m" (test_prompts fresh))))
             (Z.of_nat (length (test_prompts fresh)))) 2 /\
    PyNum.leb (PyNum.Fin 0) q = true /\ PyNum.leb q (PyNum.Fin 1) = true.
Proof.
  refine (success_rate_of_report one_of_three "m" fresh
            (report_of one_of_three "m" fresh)
            (snd (benchmark_model one_of_three "m" fresh)) _ _).
  - vm_compute. reflexivity.
  - vm_compute. lia.
Defined.

(** C3 fails as stated.  When the three prompts time out (scenario B) the
    report has no [success_rate] entry at all, rather than 0.0; and when one
    prompt of three succeeds the entry is 0.33, which is not 1/3. *)
Lemma success_rate_missing_or_rounded :
  fst (benchmark_model scenario_B "m2" fresh)
    = Ok (report_of scenario_B "m2" fresh) /\
  success_rate (report_of scenario_B "m2" fresh) = None /\
  fst (benchmark_model one_of_three "m" fresh)
    = Ok (report_of one_of_three "m" fresh) /\
  length (successful_runs one_of_three "m" default_prompts) = 1%nat /\
  length default_prompts = 3%nat /\
  success_rate (report_of one_of_three "m" fresh) = Some (PyNum.int_div 33 100) /\
  PyNum.eqb (PyNum.int_div 33 100) (PyNum.int_div 1 3) = false.
Proof. split_and!; vm_compute; reflexivity. Qed.

(** ** C10: stored values are rounded to two decimals *)

Lemma recorded_rounded w m tp pr :
  recorded w m tp pr ->
  no_error (pr_metrics pr) = true ->
  exists response total tps rss0 rss1,
    inference w m (pr_prompt pr) = Ok (response, total, tps, pr_metrics pr) /\
    memory_before (invocations w m (pr_prompt pr)) = Ok rss0 /\
    memory_after (invocations w m (pr_prompt pr)) = Ok rss1 /\
    rounded_metrics total tps rss0 rss1 (pr_metrics pr).
Proof.
  intros (response & total & tps & Hinf & _ & Hprompt & _) Hok.
  rewrite <- Hprompt in Hinf.
  destruct (inference_run _ _ _ _ Hinf) as [s' Hrun].
  destruct (run_inference_success _ _ _ _ _ _ _ _ _ Hrun Hok)
    as (cp & rss0 & rss1 & _ & _ & Hb & Ha & _ & _ & _ & Hm).
  exists response, total, tps, rss0, rss1.
  unfold rounded_metrics. split_and!; try assumption; by rewrite Hm.
Qed.

(** C10.  In every report [benchmark_model] returns, each error-free prompt
    result records [total_time], [tokens_per_second] and [memory_delta_mb]
    as the elapsed time, the throughput and the memory difference of its
    inference, each passed through [round(_, 2)]; [average_tps] and
    [average_time] are the means of the successful prompts rounded to two
    decimals (the 0.0 they start from when no prompt succeeded), and
    [success_rate], when present, is the ratio of successes rounded to two
    decimals.  Rounded to two decimals means: the float nearest to a number
    of hundredths that is within half a hundredth of the value. *)
Theorem recorded_values_are_rounded w m s r s' :
  benchmark_model w m s = (Ok r, s') ->
  let runs := successful_runs w m (test_prompts s) in
  Forall (fun pr =>
            no_error (pr_metrics pr) = true ->
            exists response total tps rss0 rss1,
              inference w m (pr_prompt pr)
                = Ok (response, total, tps, pr_metrics pr) /\
              memory_before (invocations w m (pr_prompt pr)) = Ok rss0 /\
              memory_after (invocations w m (pr_prompt pr)) = Ok rss1 /\
              rounded_metrics total tps rss0 rss1 (pr_metrics pr))
         (prompts r) /\
  rounded_to_cents
    (match runs with [] => PyNum.Fin 0 | _ => mean (throughputs runs) end)
    (average_tps r) /\
  rounded_to_cents
    (match runs with [] => PyNum.Fin 0 | _ => mean (elapsed runs) end)
    (average_time r) /\
  (forall q,
     success_rate r = Some q ->
     rounded_to_cents
       (PyNum.int_div (Z.of_nat (length runs))
          (Z.of_nat (length (test_prompts s)))) q).
Proof.
  intros H. apply benchmark_model_report in H as (_ & _ & Hrec & H).
  cbv zeta in *. split.
  { clear H. induction Hrec as [| tp pr ps prs Hr _ IH]; constructor;
      [ apply (recorded_rounded w m tp pr Hr) | exact IH ]. }
  destruct (successful_runs w m (test_prompts s)) as [| run runs].
  - destruct H as (-> & -> & ->).
    split_and!; [ apply (py_round_cents (PyNum.Fin 0))
                | apply (py_round_cents (PyNum.Fin 0)) | discriminate ].
  - destruct H as (-> & -> & ->).
    split_and!; [ apply py_round_cents | apply py_round_cents | ].
    intros q [= <-]. apply py_round_cents.
Qed.

(** In the world [thirds] the three throughputs are recorded as 0.33, 0.33
    and 0.67, and the average as the rounding of their mean. *)
Lemma recorded_values_are_rounded_witness :
  recorded_tps (report_of thirds "m" fresh)
    = [Some (VNum (PyNum.Float (PyNum.int_div 33 100)));
       Some (VNum (PyNum.Float (PyNum.int_div 33 100)));
       Some (VNum (PyNum.Float (PyNum.int_div 67 100)))] /\
  rounded_to_cents
    (match successful_runs thirds "m" (test_prompts fresh) with
     | [] => PyNum.Fin 0
     | _ => mean (throughputs (successful_runs thirds "m" (test_prompts fresh)))
     end)
    (average_tps (report_of thirds "m" fresh)).
Proof.
  destruct (recorded_values_are_rounded thirds "m" fresh
              (report_of thirds "m" fresh)
              (snd (benchmark_model thirds "m" fresh)))
    as (_ & Hd & _); [ vm_compute; reflexivity | ].
  split; [ vm_compute; reflexivity | exact Hd ].
Defined.

(** * Properties of [print_summary] *)

Section Sorting.

Context {A : Type} (key : A -> PyNum.float).

Let ge_key (a b : A) : Prop := PyNum.leb (key b) (key a) = true.
Let a_number (a : A) : Prop := is_nan (key a) = false.

Lemma insert_reverse_perm x l : Permutation (insert_reverse key x l) (x :: l).
Proof.
  induction l as [| y l IH]; simpl; [ reflexivity | ].
  destruct (PyNum.ltb (key x) (key y)); [ | reflexivity ].
  rewrite IH. apply perm_swap.
Qed.

Lemma sorted_reverse_perm l : Permutation (sorted_reverse key l) l.
Proof.
  induction l as [| x l IH]; simpl; [ reflexivity | ].
  rewrite insert_reverse_perm. by constructor.
Qed.

Lemma insert_reverse_sorted x l :
  a_number x -> Forall a_number l ->
  StronglySorted ge_key l -> StronglySorted ge_key (insert_reverse key x l).
Proof.
  intros Hx Hl. induction 1 as [| y l Hs IH Hy]; simpl.
  - repeat constructor.
  - apply Forall_cons in Hl as [Hny Hl].
    destruct (PyNum.ltb (key x) (key y)) eqn:E.
    + constructor; [ exact (IH Hl) | ].
      rewrite insert_reverse_perm. constructor; [ | exact Hy ].
      by apply ltb_leb.
    + assert (Hxy : ge_key x y) by (by apply ltb_false_leb).
      constructor; [ by constructor | ].
      constructor; [ exact Hxy | ].
      eapply Forall_impl; [ exact Hy | ].
      intros z Hz. unfold ge_key in *. by apply (leb_trans _ (key y)).
Qed.

Lemma sorted_reverse_sorted l :
  Forall a_number l -> StronglySorted ge_key (sorted_reverse key l).
Proof.
  induction l as [| x l IH]; simpl; [ constructor | ].
  intros [Hx Hl]%Forall_cons.
  apply insert_reverse_sorted; [ exact Hx | | by apply IH ].
  eapply Permutation_Forall; [ symmetry; apply sorted_reverse_perm | exact Hl ].
Qed.

Lemma insert_reverse_stable q x l :
  filter (fun a => PyNum.eqb (key a) q = true) (insert_reverse key x l)
  = filter (fun a => PyNum.eqb (key a) q = true) (x :: l).
Proof.
  induction l as [| y l IH]; simpl; [ reflexivity | ].
  destruct (PyNum.ltb (key x) (key y)) eqn:E; [ | reflexivity ].
  rewrite (filter_cons _ y (insert_reverse key x l)), IH.
  rewrite (filter_cons _ x (y :: l)), (filter_cons _ y l), (filter_cons _ x l).
  destruct (decide (PyNum.eqb (key y) q = true)) as [Hy | Hy];
    destruct (decide (PyNum.eqb (key x) q = true)) as [Hx | Hx];
    try reflexivity.
  destruct (ltb_eqb_absurd _ _ _ E Hx Hy).
Qed.

Lemma sorted_reverse_stable q l :
  filter (fun a => PyNum.eqb (key a) q = true) (sorted_reverse key l)
  = filter (fun a => PyNum.eqb (key a) q = true) l.
Proof.
  induction l as [| x l IH]; simpl; [ reflexivity | ].
  rewrite insert_reverse_stable, !filter_cons, IH. reflexivity.
Qed.

End Sorting.

Lemma positive_numbers rs :
  Forall (fun r => is_nan (average_tps r) = false) (positive rs).
Proof.
  apply Forall_forall. intros r Hr.
  unfold positive in Hr.
  apply list_elem_of_filter in Hr as [Hr _].
  by apply ltb_not_nan in Hr as [_ Hr].
Qed.

Lemma sorted_results_descending rs : descending (sorted_results rs).
Proof. apply sorted_reverse_sorted, positive_numbers. Qed.

Lemma for_each_print {A} (f : A -> line) (l : list A) s :
  for_each (fun a => print (f a)) l s = (Ok tt, log s (map f l)).
Proof.
  revert s. induction l as [| a l IH]; intros s; simpl.
  - by rewrite log_nil.
  - unfold mbind, M_bind. unfold print at 1. rewrite IH.
    unfold log; simpl. by rewrite <- app_assoc.
Qed.

(** What [print_summary] prints. *)
Lemma print_summary_lines s :
  let ranked := sorted_results (results s) in
  print_summary s =
  (Ok tt,
   log s match results s with
         | [] => [NoResultsToDisplay]
         | _ =>
             [Rule 80; SummaryTitle; Rule 80; TableHeader; Dashes 80]
               ++ map table_row ranked
               ++ Dashes 80
                  :: match ranked with
                     | fastest :: _ =>
                         [FastestModel (model fastest) (average_tps fastest)]
                     | [] => []
                     end
         end).
Proof.
  unfold print_summary. unfold mbind at 1. unfold M_bind at 1.
  unfold self_results at 1.
  destruct (results s) as [| r rs] eqn:Hrs; [ reflexivity | ].
  cbv zeta.
  set (ranked := sorted_results (r :: rs)).
  unfold mbind, M_bind, print at 1 2 3 4 5. simpl.
  change (fun result : ModelResult =>
            print (TableRow (PyStr.take 34 (model result)) (average_tps result)
                     (average_time result) (times_100 (get_success_rate result))))
    with (fun result => print (table_row result)).
  rewrite for_each_print.
  destruct ranked as [| fastest rest]; unfold print, mret, M_ret, log; simpl;
    rewrite <- ?app_assoc; simpl; rewrite <- ?app_assoc; reflexivity.
Qed.

(** * Properties of [save_results] *)

(** The state [save_results] leaves: the file is first truncated, then
    filled. *)
Lemma save_results_state w s :
  exists d,
    bd_results d = results s /\
    tc_prompts (test_configuration d) = test_prompts s /\
    save_results w s =
    (Ok tt,
     {| results := results s; test_prompts := test_prompts s;
        console := console s ++ [ResultsSaved (artifact_name w)];
        disk := <[artifact_name w := JsonFile d]> (disk s);
        disk_seen :=
          <[artifact_name w := JsonFile d]> (disk s)
          :: <[artifact_name w := EmptyFile]> (disk s)
          :: disk_seen s |}).
Proof.
  eexists. split; [ | split ]; [ | | unfold save_results, open_w, json_dump;
                                    run_monad; rewrite insert_insert_eq;
                                    reflexivity ];
    reflexivity.
Qed.

Lemma save_results_artifact w s :
  fst (save_results w s) = Ok tt /\
  results (snd (save_results w s)) = results s /\
  artifact_holds w (snd (save_results w s)) (results s).
Proof.
  destruct (save_results_state w s) as (d & Hd & _ & ->). simpl.
  split_and!; try reflexivity. unfold artifact_holds, artifact_results. simpl.
  by rewrite lookup_insert_eq, Hd.
Qed.

(** ** C5: the ranked summary *)

(** C5, as amended.  [print_summary] never raises.  It ranks the reports
    with a positive [average_tps]: the ranking is a permutation of them, in
    descending order of [average_tps], reports with equal averages in their
    original order.  With no report at all it prints that there are no
    results; otherwise it prints the header, one row per ranked report, and
    the first ranked report, if any, as the fastest: with reports none of
    which is positive that is a table without rows and without a fastest
    line.  [save_results] writes all the reports, ranked or not. *)
Theorem summary_is_ranked w s :
  let ranked := sorted_results (results s) in
  Permutation ranked (positive (results s)) /\
  descending ranked /\
  (forall q, with_tps q ranked = with_tps q (positive (results s))) /\
  print_summary s =
  (Ok tt,
   log s match results s with
         | [] => [NoResultsToDisplay]
         | _ =>
             [Rule 80; SummaryTitle; Rule 80; TableHeader; Dashes 80]
               ++ map table_row ranked
               ++ Dashes 80
                  :: match ranked with
                     | fastest :: _ =>
                         [FastestModel (model fastest) (average_tps fastest)]
                     | [] => []
                     end
         end) /\
  artifact_holds w (snd (save_results w s)) (results s).
Proof.
  cbv zeta. split; [ apply sorted_reverse_perm | ].
  split; [ apply sorted_results_descending | ].
  split; [ intros q; apply sorted_reverse_stable | ].
  split; [ apply print_summary_lines | apply save_results_artifact ].
Qed.

(** Two models tied at 5.0 behind one at 7.5, and one at 0: the tie keeps
    the order of discovery and the last is not ranked. *)
Lemma summary_is_ranked_witness :
  let rs := [report_with "a" (PyNum.Fin 5); report_with "b" (PyNum.Fin 0);
             report_with "c" (PyNum.Fin (15 # 2)); report_with "d" (PyNum.Fin 5)] in
  sorted_results rs
    = [report_with "c" (PyNum.Fin (15 # 2)); report_with "a" (PyNum.Fin 5);
       report_with "d" (PyNum.Fin 5)] /\
  descending (sorted_results rs) /\
  artifact_holds slow_word (snd (save_results slow_word (holding rs))) rs.
Proof.
  destruct (summary_is_ranked slow_word
              (holding [report_with "a" (PyNum.Fin 5);
                        report_with "b" (PyNum.Fin 0);
                        report_with "c" (PyNum.Fin (15 # 2));
                        report_with "d" (PyNum.Fin 5)]))
    as (_ & Hd & _ & _ & Ha).
  split; [ vm_compute; reflexivity | ]. split; [ exact Hd | exact Ha ].
Defined.

(** C5 fails as stated.  After scenario B the benchmark holds one report,
    whose [average_tps] is 0: no report is positive, and [print_summary]
    prints the header and an empty table, not that there are no results. *)
Lemma empty_table_instead_of_no_results :
  let s := snd (main scenario_B (boot ∅)) in
  results s = [report_of scenario_B "m2" fresh] /\
  positive (results s) = [] /\
  print_summary (holding (results s))
  = (Ok tt,
     log (holding (results s))
       [Rule 80; SummaryTitle; Rule 80; TableHeader; Dashes 80; Dashes 80]) /\
  ~ In NoResultsToDisplay (console s).
Proof.
  cbv zeta. split_and!; try (vm_compute; reflexivity).
  vm_compute. intros H.
  repeat (destruct H as [H | H]; [ discriminate H | ]). exact H.
Qed.

(** * Properties of the loop over the models *)

Lemma add_results_nil s : add_results s [] = s.
Proof. destruct s; unfold add_results; simpl; by rewrite app_nil_r. Qed.

Lemma add_log_add s a r b r' :
  add_results (log (add_results (log s a) r) b) r'
  = add_results (log s (a ++ b)) (r ++ r').
Proof. unfold add_results, log; simpl. by rewrite <- !app_assoc. Qed.

Lemma log_add_results s rs ls :
  log (add_results s rs) ls = add_results (log s ls) rs.
Proof. reflexivity. Qed.

Lemma is_Exception_not_interrupt e :
  is_Exception e = true -> is_class KeyboardInterrupt e = false.
Proof. unfold is_Exception, is_class. by destruct (class_of e). Qed.

Lemma benchmark_model_run w m s :
  benchmark_model w m s =
  (model_outcome w (test_prompts s) m, log s (model_lines w (test_prompts s) m)).
Proof. apply console_only_benchmark_model. Qed.

Lemma model_outcome_name w ps m r : model_outcome w ps m = Ok r -> model r = m.
Proof.
  unfold model_outcome, value_of.
  destruct (benchmark_model w m (base ps)) as [v s'] eqn:E. simpl. intros ->.
  by apply benchmark_model_report in E as (H & _).
Qed.

(** One iteration of the loop. *)
Lemma benchmark_models_step w n i m rest s :
  let s1 := log s (Processing i n m :: model_lines w (test_prompts s) m) in
  benchmark_models w n i (m :: rest) s =
  match model_outcome w (test_prompts s) m with
  | Ok r => benchmark_models w n (S i) rest (add_results s1 [r])
  | Raise e =>
      if is_class KeyboardInterrupt e then (Ok tt, log s1 [Interrupted])
      else if is_Exception e
           then benchmark_models w n (S i) rest (log s1 [ErrorBenchmarking m e])
           else (Raise e, s1)
  end.
Proof.
  cbn [benchmark_models].
  unfold mbind at 1. unfold M_bind at 1. unfold print at 1.
  unfold mbind at 1. unfold M_bind at 1. unfold try_except at 1.
  unfold mbind at 1. unfold M_bind at 1.
  rewrite benchmark_model_run. cbn [test_prompts].
  destruct (model_outcome w (test_prompts s) m) as [r | e].
  - unfold log. run_monad. rewrite <- app_assoc. reflexivity.
  - destruct (is_class KeyboardInterrupt e); [ | destruct (is_Exception e) ];
      unfold log; run_monad; rewrite <- ?app_assoc; reflexivity.
Qed.

(** Models that are benchmarked without an exception add their reports,
    in order. *)
Lemma benchmark_models_prefix w n done reports :
  forall i tail s,
    Forall2 (fun m r => model_outcome w (test_prompts s) m = Ok r) done reports ->
    exists ls,
      benchmark_models w n i (done ++ tail) s =
      benchmark_models w n (i + length done) tail (add_results (log s ls) reports).
Proof.
  revert reports. induction done as [| m done IH]; intros reports i tail s H.
  - inversion H; subst. exists []. rewrite log_nil, add_results_nil.
    simpl. by rewrite Nat.add_0_r.
  - inversion H as [| ? r ? reports' Hm Hrest]; subst.
    cbn [app]. rewrite benchmark_models_step, Hm.
    destruct (IH reports' (S i) tail
                (add_results
                   (log s (Processing i n m :: model_lines w (test_prompts s) m))
                   [r]))
      as [ls Hls]; [ exact Hrest | ].
    rewrite Hls. eexists.
    rewrite add_log_add. cbn [length]. rewrite Nat.add_succ_r. reflexivity.
Qed.

(** The loop only appends to the console and to the reports, every report
    it appends is the report of one of the models, and it raises nothing
    that is an [Exception]. *)
Lemma benchmark_models_frame w n models :
  forall i s,
  exists rs ls,
    snd (benchmark_models w n i models s) = add_results (log s ls) rs /\
    Forall (fun r => In (model r) models) rs /\
    (forall e, fst (benchmark_models w n i models s) = Raise e ->
               is_Exception e = false).
Proof.
  induction models as [| m rest IH]; intros i s.
  - exists [], []. rewrite log_nil, add_results_nil.
    split_and!; [ reflexivity | constructor | discriminate ].
  - rewrite benchmark_models_step.
    set (l1 := Processing i n m :: model_lines w (test_prompts s) m).
    destruct (model_outcome w (test_prompts s) m) as [r | e] eqn:Hm.
    + destruct (IH (S i) (add_results (log s l1) [r]))
        as (rs & ls & Hs & Hrs & Hfst).
      exists ([r] ++ rs), (l1 ++ ls). split; [ | split ].
      * rewrite Hs. apply add_log_add.
      * constructor; [ left; symmetry; eapply model_outcome_name; eauto | ].
        eapply Forall_impl; [ exact Hrs | ]. intros; by right.
      * exact Hfst.
    + destruct (is_class KeyboardInterrupt e) eqn:Hk.
      * exists [], (l1 ++ [Interrupted]). cbn [fst snd].
        rewrite add_results_nil, log_log.
        split_and!; [ reflexivity | constructor | discriminate ].
      * destruct (is_Exception e) eqn:He.
        -- destruct (IH (S i) (log (log s l1) [ErrorBenchmarking m e]))
             as (rs & ls & Hs & Hrs & Hfst).
           exists rs, (l1 ++ [ErrorBenchmarking m e] ++ ls).
           split; [ | split ].
           ++ rewrite Hs, !log_log. reflexivity.
           ++ eapply Forall_impl; [ exact Hrs | ]. intros; by right.
           ++ exact Hfst.
        -- exists [], l1. cbn [fst snd]. rewrite add_results_nil.
           split_and!; [ reflexivity | constructor | by intros ? [= <-] ].
Qed.

(** * Properties of [run_full_benchmark] *)

Lemma get_available_models_run w s :
  exists ls, get_available_models w s = (discovered w, log s ls).
Proof.
  unfold discovered, value_of, get_available_models. run_monad.
  destruct (list_probe w) as [[rc out err] | e]; simpl.
  - destruct (negb (rc =? 0)); simpl.
    + unfold is_class; simpl. by exists [ErrorGettingModelList
        (Exn CalledProcessError
           ("Command '['ollama', 'list']' returned non-zero exit status "
              ++ decimal rc ++ "."))%string].
    + exists []. by rewrite log_nil.
  - destruct (is_class CalledProcessError e); simpl.
    + by exists [ErrorGettingModelList e].
    + exists []. by rewrite log_nil.
Qed.

Lemma print_summary_run s :
  print_summary s = (Ok tt, log s (summary_lines (results s))).
Proof. apply print_summary_lines. Qed.

(** With at least one model discovered, the run is the loop, then
    [save_results], then [print_summary]. *)
Lemma run_full_benchmark_nonempty w s m ms :
  discovered w = Ok (m :: ms) ->
  exists ls,
    run_full_benchmark w s =
    (benchmark_models w (length (m :: ms)) 1 (m :: ms);;
     save_results w;; print_summary) (log s ls).
Proof.
  intros Hd. unfold run_full_benchmark.
  destruct (get_available_models_run w s) as [ls Hls].
  unfold mbind at 1. unfold M_bind at 1. rewrite Hls, Hd.
  eexists.
  unfold mbind at 1. unfold M_bind at 1. unfold print at 1.
  unfold mbind at 1. unfold M_bind at 1. unfold self_test_prompts at 1.
  unfold mbind at 1. unfold M_bind at 1. unfold print at 1.
  unfold mbind at 1. unfold M_bind at 1. unfold print at 1.
  cbn [test_prompts log].
  match goal with
  | |- _ ?s1 = _ ?s2 => replace s1 with s2; [ reflexivity | ]
  end.
  unfold log; simpl. rewrite <- !app_assoc. reflexivity.
Qed.

(** When the loop ends without raising, the run saves and summarises what
    the loop collected. *)
Lemma finalize_after_loop w n i models s s1 :
  benchmark_models w n i models s = (Ok tt, s1) ->
  exists s',
    (benchmark_models w n i models;; save_results w;; print_summary) s
      = (Ok tt, s') /\
    results s' = results s1 /\
    artifact_holds w s' (results s1) /\
    exists before, console s' = before ++ summary_lines (results s1).
Proof.
  intros Hloop. unfold mbind at 1. unfold M_bind at 1. rewrite Hloop.
  unfold mbind at 1. unfold M_bind at 1.
  destruct (save_results_artifact w s1) as (Hok & Hres & Hart).
  destruct (save_results w s1) as [v s2]. simpl in Hok, Hres, Hart. subst v.
  rewrite print_summary_run. eexists. split; [ reflexivity | ].
  split; [ exact Hres | ]. split; [ exact Hart | ].
  rewrite Hres. by exists (console s2).
Qed.

(** ** C6: a model that fails is skipped *)

(** C6, as amended.  When benchmarking a model raises an [Exception], the
    loop goes on with the next model from a state that differs only by the
    printed lines: the reports collected before are kept and the failing
    model adds none, what it had collected is dropped.  Whatever the loop
    then adds are reports of the remaining models, and the loop itself
    raises no [Exception]. *)
Theorem model_fault_is_isolated w n i m rest s e :
  model_outcome w (test_prompts s) m = Raise e ->
  is_Exception e = true ->
  (exists ls,
      benchmark_models w n i (m :: rest) s
      = benchmark_models w n (S i) rest (log s ls)) /\
  (exists rs ls,
      snd (benchmark_models w n i (m :: rest) s) = add_results (log s ls) rs /\
      Forall (fun r => In (model r) rest) rs) /\
  (forall e', fst (benchmark_models w n i (m :: rest) s) = Raise e' ->
              is_Exception e' = false).
Proof.
  intros Hm He.
  pose proof (benchmark_models_step w n i m rest s) as Hstep. cbv zeta in Hstep.
  rewrite Hm, (is_Exception_not_interrupt e He), He, log_log in Hstep.
  split; [ eauto | ].
  destruct (benchmark_models_frame w n rest (S i)
              (log s ((Processing i n m :: model_lines w (test_prompts s) m)
                        ++ [ErrorBenchmarking m e])))
    as (rs & ls & Hs & Hrs & Hfst).
  rewrite Hstep. split; [ | exact Hfst ].
  exists rs. eexists. rewrite Hs, log_log. split; [ reflexivity | exact Hrs ].
Qed.

Lemma model_fault_is_isolated_witness :
  exists ls,
    benchmark_models flaky 2 1 ["m1" : text; "m2" : text] started
    = benchmark_models flaky 2 2 ["m2" : text] (log started ls).
Proof.
  destruct (model_fault_is_isolated flaky 2 1 "m1" ["m2" : text] started
              (Exn OtherException "process no longer exists"))
    as (H & _); [ vm_compute; reflexivity | reflexivity | exact H ].
Defined.

(** C6 fails as stated.  In the world [flaky] the first prompt of [m1] is
    answered and the memory reading before its second prompt raises:
    [benchmark_model] raises, and the run ends with the report of [m2]
    alone, in the benchmark and in the file; the result [m1] had collected
    is in neither. *)
Lemma partial_report_is_dropped :
  let s := snd (main flaky (boot ∅)) in
  inference flaky "m1" first_prompt
    = Ok (PyStr.u "a b c", PyNum.Fin 1, PyNum.Float (PyNum.Fin 3),
         success_metrics (PyNum.Fin 1) 3 (PyNum.Float (PyNum.Fin 3))
           (PyNum.Fin 1) 5) /\
  model_outcome flaky default_prompts "m1"
    = Raise (Exn OtherException "process no longer exists") /\
  fst (main flaky (boot ∅)) = Ok tt /\
  map model (results s) = ["m2" : text] /\
  artifact_holds flaky s (results s).
Proof.
  cbv zeta. split_and!; vm_compute; reflexivity.
Qed.

(** ** C7: interruption *)

(** C7, as amended.  When the models [done] have been benchmarked, with
    reports [reports], and the user interrupts the benchmark of the next
    model, [run_full_benchmark] stops the loop, returns normally, and has
    saved and summarised exactly the reports collected before: the file
    holds them and nothing of the interrupted model, whose collected prompt
    results are discarded. *)
Theorem interruption_keeps_completed_reports w s done m rest reports e :
  discovered w = Ok (done ++ m :: rest) ->
  Forall2 (fun m r => model_outcome w (test_prompts s) m = Ok r) done reports ->
  model_outcome w (test_prompts s) m = Raise e ->
  is_class KeyboardInterrupt e = true ->
  exists s',
    run_full_benchmark w s = (Ok tt, s') /\
    results s' = results s ++ reports /\
    artifact_holds w s' (results s ++ reports) /\
    exists before, console s' = before ++ summary_lines (results s ++ reports).
Proof.
  intros Hd Hdone Hm Hk.
  assert (Hne : exists m0 ms, done ++ m :: rest = m0 :: ms).
  { destruct done; simpl; eauto. }
  destruct Hne as (m0 & ms & Hne). rewrite Hne in Hd.
  destruct (run_full_benchmark_nonempty w s m0 ms Hd) as [ls ->].
  rewrite <- Hne.
  destruct (benchmark_models_prefix w (length (done ++ m :: rest)) done reports
              1 (m :: rest) (log s ls) Hdone) as [ls' Hprefix].
  assert (Hloop : exists ls2,
             benchmark_models w (length (done ++ m :: rest)) 1
               (done ++ m :: rest) (log s ls)
             = (Ok tt, add_results (log s ls2) reports)).
  { rewrite Hprefix, benchmark_models_step. cbn [test_prompts add_results log].
    rewrite Hm, Hk. eexists. rewrite !log_add_results, !log_log. reflexivity. }
  destruct Hloop as [ls2 Hloop].
  destruct (finalize_after_loop _ _ _ _ _ _ Hloop) as (s' & -> & Hr & Ha & Hc).
  exists s'. split; [ reflexivity | ]. simpl in *. auto.
Qed.

(** Scenario D: interrupted during the third of five models, the run saves
    the reports of the first two. *)
Lemma interruption_keeps_completed_reports_witness :
  exists s',
    run_full_benchmark scenario_D started = (Ok tt, s') /\
    results s' = [] ++ [report_of scenario_D "m1" fresh; report_of scenario_D "m2" fresh] /\
    artifact_holds scenario_D s'
      ([] ++ [report_of scenario_D "m1" fresh; report_of scenario_D "m2" fresh]) /\
    exists before,
      console s' = before ++
        summary_lines ([] ++ [report_of scenario_D "m1" fresh;
                              report_of scenario_D "m2" fresh]).
Proof.
  apply (interruption_keeps_completed_reports scenario_D started
           ["m1" : text; "m2" : text] "m3" ["m4" : text; "m5" : text]
           [report_of scenario_D "m1" fresh; report_of scenario_D "m2" fresh]
           (Exn KeyboardInterrupt "")).
  - vm_compute. reflexivity.
  - constructor; [ vm_compute; reflexivity | ].
    constructor; [ vm_compute; reflexivity | constructor ].
  - vm_compute. reflexivity.
  - reflexivity.
Defined.

(** C7 fails as stated.  In scenario D the first prompt of [m3] is answered
    before the interruption, yet the run ends with the reports of [m1] and
    [m2] only, in the benchmark and in the file: no report is emitted for
    [m3]. *)
Lemma interrupted_model_emits_no_report :
  let s := snd (main scenario_D (boot ∅)) in
  inference scenario_D "m3" first_prompt
    = Ok (PyStr.u "a b c", PyNum.Fin 1, PyNum.Float (PyNum.Fin 3),
         success_metrics (PyNum.Fin 1) 3 (PyNum.Float (PyNum.Fin 3))
           (PyNum.Fin 1) 5) /\
  model_outcome scenario_D default_prompts "m3" = Raise (Exn KeyboardInterrupt "") /\
  fst (main scenario_D (boot ∅)) = Ok tt /\
  map model (results s) = ["m1" : text; "m2" : text] /\
  artifact_holds scenario_D s (results s).
Proof.
  cbv zeta. split_and!; vm_compute; reflexivity.
Qed.

(** ** C8: discovery *)

Lemma run_full_benchmark_empty w s ls :
  get_available_models w s = (Ok [], log s ls) ->
  run_full_benchmark w s = (Ok tt, log s (ls ++ [NoModelsFound])).
Proof.
  intros H. unfold run_full_benchmark.
  unfold mbind at 1. unfold M_bind at 1. rewrite H.
  unfold print. by rewrite <- log_log.
Qed.

(** C8, as amended.  When [ollama list] exits with a non-zero status,
    [get_available_models] does not fail: it prints the error and returns
    the empty list, and the run then ends as for an empty listing.  When
    the listing has no model the run prints that no models were found and
    returns.  When the command cannot be run the exception leaves
    [get_available_models] and [run_full_benchmark].  In the three cases the
    state changes by printed lines at most: no report is added and no file
    is written. *)
Theorem discovery_outcomes w s :
  (forall cp,
      list_probe w = Exited cp -> returncode cp <> 0 ->
      exists e,
        is_class CalledProcessError e = true /\
        get_available_models w s = (Ok [], log s [ErrorGettingModelList e]) /\
        run_full_benchmark w s
        = (Ok tt, log s [ErrorGettingModelList e; NoModelsFound])) /\
  (forall cp,
      list_probe w = Exited cp -> returncode cp = 0 ->
      model_names (tail (PyStr.split_on PyStr.LF (PyStr.strip (stdout cp)))) = [] ->
      run_full_benchmark w s = (Ok tt, log s [NoModelsFound])) /\
  (forall e,
      list_probe w = Failed e -> is_class CalledProcessError e = false ->
      get_available_models w s = (Raise e, s) /\
      run_full_benchmark w s = (Raise e, s)).
Proof.
  split; [ | split ].
  - intros [rc out err] Hp Hrc. simpl in Hrc.
    assert (Hget : exists e,
               is_class CalledProcessError e = true /\
               get_available_models w s = (Ok [], log s [ErrorGettingModelList e])).
    { unfold get_available_models. rewrite Hp. run_monad.
      destruct (Z.eqb_spec rc 0) as [? | _]; [ contradiction | ]. simpl.
      eexists. split; [ | reflexivity ]. reflexivity. }
    destruct Hget as (e & He & Hget). exists e.
    split; [ exact He | ]. split; [ exact Hget | ].
    apply (run_full_benchmark_empty w s _ Hget).
  - intros [rc out err] Hp Hrc Hnames. simpl in Hrc, Hnames. subst rc.
    rewrite <- (app_nil_l [NoModelsFound]).
    apply run_full_benchmark_empty.
    unfold get_available_models. rewrite Hp. run_monad.
    by rewrite Hnames, log_nil.
  - intros e Hp He.
    assert (Hget : get_available_models w s = (Raise e, s)).
    { unfold get_available_models. rewrite Hp. run_monad. by rewrite He. }
    split; [ exact Hget | ].
    unfold run_full_benchmark. unfold mbind at 1. unfold M_bind at 1.
    by rewrite Hget.
Qed.

Lemma discovery_outcomes_witness :
  exists e,
    is_class CalledProcessError e = true /\
    get_available_models list_fails started
    = (Ok [], log started [ErrorGettingModelList e]) /\
    run_full_benchmark list_fails started
    = (Ok tt, log started [ErrorGettingModelList e; NoModelsFound]).
Proof.
  destruct (discovery_outcomes list_fails started) as (H & _).
  apply (H {| returncode := 1; stdout := "";
              stderr := "Error: could not connect to ollama app" |}).
  - reflexivity.
  - discriminate.
Defined.

(** C8 fails as stated.  When [ollama list] exits with status 1,
    [get_available_models] returns the empty list instead of failing, and
    [main] ends normally after printing that no models were found. *)
Lemma failed_listing_is_an_empty_listing :
  fst (get_available_models list_fails started) = Ok [] /\
  fst (main list_fails (boot ∅)) = Ok tt /\
  console (snd (main list_fails (boot ∅)))
  = [Banner; Rule 50;
     ErrorGettingModelList
       (Exn CalledProcessError
          "Command '['ollama', 'list']' returned non-zero exit status 1.");
     NoModelsFound] /\
  disk_seen (snd (main list_fails (boot ∅))) = [].
Proof. split_and!; vm_compute; reflexivity. Qed.

(** ** C9: the file written by [save_results] *)

(** C9, as amended.  [save_results] returns normally whatever reports the
    benchmark holds, and the file then holds exactly them.  The file name
    depends on the date only, so a later call on the same date replaces the
    file.  The file is written in place: it is first truncated, then
    filled, and between the two it is empty. *)
Theorem save_results_in_place w s :
  exists d,
    bd_results d = results s /\
    fst (save_results w s) = Ok tt /\
    disk (snd (save_results w s)) = <[artifact_name w := JsonFile d]> (disk s) /\
    disk_seen (snd (save_results w s))
    = <[artifact_name w := JsonFile d]> (disk s)
      :: <[artifact_name w := EmptyFile]> (disk s)
      :: disk_seen s /\
    (forall w' s',
        today w' = today w ->
        disk s' = disk (snd (save_results w s)) ->
        artifact_name w' = artifact_name w /\
        artifact_holds w (snd (save_results w' s')) (results s') /\
        delete (artifact_name w) (disk (snd (save_results w' s')))
        = delete (artifact_name w) (disk s)).
Proof.
  destruct (save_results_state w s) as (d & Hd & _ & Hs).
  exists d. rewrite Hs. cbn [fst snd disk disk_seen].
  split; [ exact Hd | ]. repeat (split; [ reflexivity | ]).
  intros w' s' Hday Hdisk.
  assert (Hname : artifact_name w' = artifact_name w).
  { unfold artifact_name. by rewrite Hday. }
  split; [ exact Hname | ].
  destruct (save_results_state w' s') as (d' & Hd' & _ & Hs').
  rewrite Hs'. cbn [snd disk]. rewrite Hname, Hdisk. split.
  - unfold artifact_holds, artifact_results. cbn [disk].
    by rewrite lookup_insert_eq, Hd'.
  - by rewrite !delete_insert_eq.
Qed.

Lemma save_results_in_place_witness :
  exists d,
    bd_results d = results (holding [report_with "a" (PyNum.Fin 5)]) /\
    fst (save_results slow_word (holding [report_with "a" (PyNum.Fin 5)])) = Ok tt.
Proof.
  destruct (save_results_in_place slow_word (holding [report_with "a" (PyNum.Fin 5)]))
    as (d & H1 & H2 & _).
  exists d. split; assumption.
Defined.

(** C9 fails as stated.  The benchmark saves one report, then, on the same
    date, two: while the second call runs the disk goes through a state in
    which the file is empty, neither the first artifact nor the second. *)
Lemma save_results_is_not_atomic :
  let first := snd (save_results slow_word (holding [report_with "a" (PyNum.Fin 5)])) in
  let second := snd (save_results slow_word (add_results first [report_with "b" (PyNum.Fin 7)])) in
  artifact_results slow_word first = Some [report_with "a" (PyNum.Fin 5)] /\
  artifact_results slow_word second = Some [report_with "a" (PyNum.Fin 5); report_with "b" (PyNum.Fin 7)] /\
  exists seen,
    In seen (disk_seen second) /\
    seen !! artifact_name slow_word = Some EmptyFile.
Proof.
  cbv zeta. split; [ vm_compute; reflexivity | ].
  split; [ vm_compute; reflexivity | ].
  destruct (save_results_state slow_word (holding [report_with "a" (PyNum.Fin 5)]))
    as (d1 & _ & _ & H1).
  rewrite H1. cbn [snd].
  match goal with
  | |- context [ save_results slow_word ?s ] =>
      destruct (save_results_state slow_word s) as (d2 & _ & _ & H2)
  end.
  rewrite H2. cbn [snd disk_seen].
  eexists. split; [ right; left; reflexivity | ].
  by rewrite lookup_insert_eq.
Qed.


(** * Further properties of the code *)

(** ** Strings: [split], [strip] and slices *)

Section Strings.

Import PyStr.

Lemma word_of_rev (cur : text) :
  cur <> [] -> Forall (fun c => isspace c = false) cur -> is_word (rev cur).
Proof.
  intros Hne Hcur. split.
  - intros H. apply (f_equal (@rev N)) in H. rewrite rev_involutive in H.
    contradiction.
  - by apply Forall_rev.
Qed.

Lemma split_ws_aux_words s :
  forall cur,
    Forall (fun c => isspace c = false) cur ->
    Forall is_word (split_ws_aux cur s).
Proof.
  induction s as [| c s IH]; intros cur Hcur; simpl.
  - destruct cur; [ constructor | ].
    constructor; [ by apply word_of_rev | constructor ].
  - destruct (isspace c) eqn:Hc.
    + destruct cur; [ by apply IH | ].
      constructor; [ by apply word_of_rev | by apply IH ].
    + apply IH. by constructor.
Qed.

Lemma split_ws_aux_nonempty s :
  forall cur, cur <> [] -> split_ws_aux cur s <> [].
Proof.
  induction s as [| c s IH]; intros cur Hcur; simpl.
  - by destruct cur.
  - destruct (isspace c); [ by destruct cur | by apply IH ].
Qed.

Lemma split_ws_nil_lstrip s : split_ws s = [] -> lstrip s = [].
Proof.
  unfold split_ws. induction s as [| c s IH]; simpl; [ reflexivity | ].
  destruct (isspace c); [ exact IH | ].
  intros H. by apply split_ws_aux_nonempty in H.
Qed.

Lemma split_ws_aux_lstrip s : split_ws_aux [] (lstrip s) = split_ws_aux [] s.
Proof.
  induction s as [| c s IH]; simpl; [ reflexivity | ].
  destruct (isspace c) eqn:Hc; [ exact IH | ]. simpl. by rewrite Hc.
Qed.

Lemma split_ws_aux_rstrip s :
  forall cur, split_ws_aux cur (rstrip s) = split_ws_aux cur s.
Proof.
  induction s as [| c s IH]; intros cur; [ reflexivity | ].
  cbn [rstrip]. destruct (rstrip s) as [| c' r] eqn:Hr.
  - cbn [split_ws_aux]. destruct (isspace c) eqn:Hc.
    + cbn [split_ws_aux]. destruct cur; by rewrite <- IH.
    + cbn [split_ws_aux]. rewrite Hc. by rewrite <- IH.
  - cbn [split_ws_aux]. destruct (isspace c); [ destruct cur | ];
      by rewrite <- IH.
Qed.

Lemma split_ws_strip s : split_ws (strip s) = split_ws s.
Proof.
  unfold split_ws, strip. by rewrite split_ws_aux_rstrip, split_ws_aux_lstrip.
Qed.

Lemma split_ws_aux_app a c b :
  isspace c = true ->
  forall cur,
    split_ws_aux cur (a ++ c :: b) = split_ws_aux cur a ++ split_ws b.
Proof.
  intros Hc. induction a as [| x a IH]; intros cur; simpl.
  - rewrite Hc. by destruct cur.
  - destruct (isspace x); [ destruct cur | ]; by rewrite IH.
Qed.

Lemma take_length n (s : text) : length (take n s) = Nat.min n (length s).
Proof. apply length_firstn. Qed.

Lemma take_prefix n (s : text) : exists rest, s = take n s ++ rest.
Proof. exists (skipn n s). symmetry. apply firstn_skipn. Qed.

End Strings.

(** ** Discovery: the names returned *)

Lemma model_names_words lines : Forall is_word (model_names lines).
Proof.
  unfold model_names. induction lines as [| ln lines IH]; simpl; [ constructor | ].
  apply Forall_app. split; [ | exact IH ].
  destruct (PyStr.strip ln) as [| c0 rest0] eqn:Hstrip; [ constructor | ].
  constructor; [ | constructor ].
  pose proof (split_ws_aux_words ln [] (List.Forall_nil _)) as Hw.
  fold (PyStr.split_ws ln) in Hw.
  destruct (PyStr.split_ws ln) as [| x xs] eqn:Hs.
  - apply split_ws_nil_lstrip in Hs. unfold PyStr.strip in Hstrip.
    rewrite Hs in Hstrip. discriminate Hstrip.
  - by inversion Hw.
Qed.

(** X1.  Every model name [get_available_models] returns is a word: it is
    not empty and holds no white space.  In particular [line.split()[0]] is
    never evaluated on a line without a field. *)
Theorem discovered_names_are_words w s models s' :
  get_available_models w s = (Ok models, s') ->
  Forall is_word models.
Proof.
  unfold get_available_models. run_monad.
  destruct (list_probe w) as [[rc out err] | e]; simpl.
  - destruct (negb (rc =? 0)); simpl.
    + unfold is_class; simpl. intros [= <- _]. constructor.
    + intros [= <- _]. apply model_names_words.
  - destruct (is_class CalledProcessError e); simpl.
    + intros [= <- _]. constructor.
    + discriminate.
Qed.

Lemma discovered_names_are_words_witness :
  Forall is_word ["m1" : text; "m2" : text; "m3" : text; "m4" : text; "m5" : text].
Proof.
  apply (discovered_names_are_words scenario_D started
           ["m1" : text; "m2" : text; "m3" : text; "m4" : text; "m5" : text]
           started).
  vm_compute. reflexivity.
Defined.

(** ** Token counts *)

(** X2.  The token count ignores white space around the text, is additive
    over two texts joined by a white space character, and counts words:
    every token [split] yields is not empty and holds no white space. *)
Theorem count_tokens_counts_words s :
  count_tokens (PyStr.strip s) = count_tokens s /\
  Forall is_word (PyStr.split_ws s) /\
  (forall a c b,
      PyStr.isspace c = true ->
      count_tokens (a ++ c :: b) = (count_tokens a + count_tokens b)%nat).
Proof.
  unfold count_tokens. split; [ by rewrite split_ws_strip | ].
  split; [ apply split_ws_aux_words; constructor | ].
  intros a c b Hc. unfold PyStr.split_ws at 1.
  by rewrite (split_ws_aux_app a c b Hc), length_app.
Qed.

(** U+00A0, the no-break space, separates tokens. *)
Lemma count_tokens_counts_words_witness :
  count_tokens (PyStr.u "one two" ++ 160%N :: PyStr.u "three")
  = (count_tokens "one two" + count_tokens "three")%nat.
Proof.
  destruct (count_tokens_counts_words []) as (_ & _ & H).
  apply H. reflexivity.
Defined.

(** X3.  The number of tokens recorded for a successful inference is the
    number of words of the raw standard output of the backend: stripping
    the output does not change it.  The recorded length is the number of
    characters of the stripped output. *)
Theorem tokens_generated_counts_stdout
    w m prompt s response total tps metrics s' :
  run_inference w m prompt s = (Ok (response, total, tps, metrics), s') ->
  no_error metrics = true ->
  exists cp,
    process (invocations w m prompt) = Exited cp /\
    metrics !! "tokens_generated"
    = Some (VNum (PyNum.Int (Z.of_nat (count_tokens (stdout cp))))) /\
    metrics !! "response_length"
    = Some (VNum (PyNum.Int (Z.of_nat (length (PyStr.strip (stdout cp)))))).
Proof.
  intros Hrun Hok.
  destruct (run_inference_success _ _ _ _ _ _ _ _ _ Hrun Hok)
    as (cp & rss0 & rss1 & Hp & _ & _ & _ & Hresp & _ & _ & Hm).
  exists cp. split; [ exact Hp | ]. rewrite Hm, Hresp.
  destruct (count_tokens_counts_words (stdout cp)) as (Hstrip & _).
  split; [ | reflexivity ].
  unfold success_metrics. rewrite lookup_insert_ne by done.
  rewrite lookup_insert_eq. by rewrite Hstrip.
Qed.

Lemma tokens_generated_counts_stdout_witness :
  let tps := PyNum.Float (PyNum.div (PyNum.of_int 1) (PyNum.Fin 3)) in
  exists cp,
    process (invocations slow_word "m" "Say a.") = Exited cp /\
    success_metrics (PyNum.Fin 3) 1 tps (PyNum.Fin 1) 1 !! "tokens_generated"
    = Some (VNum (PyNum.Int (Z.of_nat (count_tokens (stdout cp))))) /\
    success_metrics (PyNum.Fin 3) 1 tps (PyNum.Fin 1) 1 !! "response_length"
    = Some (VNum (PyNum.Int (Z.of_nat (length (PyStr.strip (stdout cp)))))).
Proof.
  refine (tokens_generated_counts_stdout slow_word "m" "Say a." fresh
            "a" (PyNum.Fin 3)
            (PyNum.Float (PyNum.div (PyNum.of_int 1) (PyNum.Fin 3)))
            (success_metrics (PyNum.Fin 3) 1
               (PyNum.Float (PyNum.div (PyNum.of_int 1) (PyNum.Fin 3)))
               (PyNum.Fin 1) 1)
            (log fresh [TestingPrompt (PyStr.u "Say a.")]) _ _);
    vm_compute; reflexivity.
Defined.

(** ** The response preview and the truncated model name *)

(** X4.  The response kept in a prompt result is the response itself when
    it has at most 200 characters, and otherwise its first 200 characters
    followed by three dots: it never has more than 203 characters and
    always starts like the response. *)
Theorem preview_is_bounded response :
  ((length response <= 200)%nat -> preview response = response) /\
  ((200 < length response)%nat ->
   preview response = PyStr.take 200 response ++ PyStr.u "..." /\
   length (preview response) = 203%nat) /\
  (length (preview response) <= 203)%nat /\
  (exists rest, response = PyStr.take 200 response ++ rest).
Proof.
  unfold preview.
  destruct (Nat.ltb_spec 200 (length response)) as [Hlong | Hshort].
  - assert (Hlen : length (PyStr.take 200 response ++ PyStr.u "...") = 203%nat).
    { rewrite length_app, take_length.
      change (length (PyStr.u "...")) with 3%nat. lia. }
    split; [ lia | ]. split; [ auto | ]. split; [ lia | apply take_prefix ].
  - split; [ auto | ]. split; [ lia | ]. split; [ lia | apply take_prefix ].
Qed.

Lemma preview_is_bounded_witness :
  preview (PyStr.u "short answer") = PyStr.u "short answer".
Proof.
  destruct (preview_is_bounded (PyStr.u "short answer")) as (H & _).
  apply H. vm_compute. lia.
Defined.

(** ** [benchmark_model]: prompt failures, and what it leaves alone *)

Lemma foldM_benchmark_prompt_total w m ps :
  Forall (fun tp => exists v, inference w m (tp_prompt tp) = Ok v) ps ->
  forall l s, exists l' ls,
    foldM (benchmark_prompt w m) ps l s = (Ok l', log s ls).
Proof.
  induction 1 as [| tp ps [v Hv] _ IH]; intros l s; simpl.
  - exists l, []. by rewrite log_nil.
  - unfold mbind at 1. unfold M_bind at 1.
    destruct (benchmark_prompt_step w m l tp s) as [ls ->]. rewrite Hv.
    destruct (IH (next_locals l tp v) (log s ls)) as (l' & ls' & ->).
    exists l', (ls ++ ls'). by rewrite log_log.
Qed.

Lemma inference_returns w m p :
  (exists rss, memory_before (invocations w m p) = Ok rss) ->
  (forall e, raised_in_try (invocations w m p) e -> is_Exception e = true) ->
  exists v, inference w m p = Ok v.
Proof.
  intros [rss Hrss] Htry.
  pose proof (run_inference_classified w m p (base [])) as H.
  fold (value_of (run_inference w m p) []) in H. fold (inference w m p) in H.
  destruct (inference w m p) as [v | e]; [ eauto | ].
  simpl in H. destruct H as [H | [He Hr]].
  - rewrite Hrss in H. discriminate.
  - apply Htry in Hr. congruence.
Qed.

(** X5.  Failures of single prompts do not stop a model.  If the memory
    reading before each prompt succeeds and nothing but an [Exception] is
    raised inside the [try] block, then [benchmark_model] returns a report,
    whatever the backend does (non-zero exits, timeouts, other faults), and
    the report holds one result per prompt, in the order of the prompts. *)
Theorem prompt_failures_do_not_stop_the_model w m s :
  (forall tp, In tp (test_prompts s) ->
              exists rss, memory_before (invocations w m (tp_prompt tp)) = Ok rss) ->
  (forall tp e, In tp (test_prompts s) ->
                raised_in_try (invocations w m (tp_prompt tp)) e ->
                is_Exception e = true) ->
  exists r ls,
    benchmark_model w m s = (Ok r, log s ls) /\
    map pr_name (prompts r) = map tp_name (test_prompts s) /\
    map pr_prompt (prompts r) = map tp_prompt (test_prompts s).
Proof.
  intros Hmem Htry.
  assert (Hall : Forall (fun tp => exists v, inference w m (tp_prompt tp) = Ok v)
                   (test_prompts s)).
  { apply List.Forall_forall. intros tp Hin.
    apply inference_returns; [ by apply Hmem | intros e; by apply Htry ]. }
  assert (Hrun : exists r ls, benchmark_model w m s = (Ok r, log s ls)).
  { assert (Hok : exists r s', benchmark_model w m s = (Ok r, s'));
      [ | destruct Hok as (r & s' & Hok); exists r;
          pose proof Hok as Hs'; rewrite benchmark_model_run in Hs';
          injection Hs' as _ <-; eauto ].
    unfold benchmark_model.
    unfold mbind at 1. unfold M_bind at 1. unfold print at 1.
    unfold mbind at 1. unfold M_bind at 1. unfold self_test_prompts at 1.
    cbn [test_prompts].
    unfold mbind at 1. unfold M_bind at 1.
    match goal with
    | |- context [ foldM _ _ ?l ?s0 ] =>
        destruct (foldM_benchmark_prompt_total w m _ Hall l s0) as (l' & ls & ->)
    end.
    run_monad. eexists _, _. reflexivity. }
  destruct Hrun as (r & ls & Hrun). exists r, ls. split; [ exact Hrun | ].
  apply benchmark_model_report in Hrun as (_ & _ & Hrec & _).
  cbv zeta in Hrec. clear -Hrec.
  induction Hrec as [| tp pr ps prs (? & ? & ? & _ & Hn & Hp & _) _ [IH1 IH2]];
    [ by split | ].
  simpl. by rewrite Hn, Hp, IH1, IH2.
Qed.

Lemma prompt_failures_do_not_stop_the_model_witness :
  exists r ls,
    benchmark_model scenario_B "m2" fresh = (Ok r, log fresh ls) /\
    map pr_name (prompts r) = map tp_name (test_prompts fresh) /\
    map pr_prompt (prompts r) = map tp_prompt (test_prompts fresh).
Proof.
  apply (prompt_failures_do_not_stop_the_model scenario_B "m2" fresh).
  - intros tp _. by exists 104857600.
  - intros tp e _ [H | (cp & H & _)]; [ | discriminate H ].
    by injection H as <-.
Defined.

(** X6.  Whether they return or raise, [run_inference] and
    [benchmark_model] only print: the reports held by the benchmark, its
    prompts and the disk are left as they were. *)
Theorem benchmark_model_only_prints w m s :
  (forall p v s', run_inference w m p s = (v, s') -> exists ls, s' = log s ls) /\
  (forall v s', benchmark_model w m s = (v, s') ->
                exists ls,
                  s' = log s ls /\ results s' = results s /\
                  test_prompts s' = test_prompts s /\
                  disk s' = disk s /\ disk_seen s' = disk_seen s).
Proof.
  split.
  - intros p v s' H. rewrite run_inference_value in H. injection H as _ <-. eauto.
  - intros v s' H. rewrite benchmark_model_run in H. injection H as _ <-.
    eexists. split_and!; reflexivity.
Qed.

Lemma benchmark_model_only_prints_witness :
  exists ls,
    snd (benchmark_model interrupted_world "m" fresh) = log fresh ls /\
    results (snd (benchmark_model interrupted_world "m" fresh)) = results fresh.
Proof.
  destruct (benchmark_model_only_prints interrupted_world "m" fresh) as [_ H].
  destruct (H (fst (benchmark_model interrupted_world "m" fresh))
              (snd (benchmark_model interrupted_world "m" fresh)))
    as (ls & H1 & H2 & _).
  - by destruct (benchmark_model interrupted_world "m" fresh).
  - by exists ls.
Defined.

(** ** Reports without a success, and the sign of the throughput *)

Lemma sorted_results_positive rs r :
  In r (sorted_results rs)
  <-> In r rs /\ PyNum.ltb (PyNum.Fin 0) (average_tps r) = true.
Proof.
  unfold sorted_results.
  rewrite <- !list_elem_of_In.
  rewrite (sorted_reverse_perm average_tps _), list_elem_of_filter.
  tauto.
Qed.

Lemma recorded_failures w m ps prs :
  Forall2 (recorded w m) ps prs ->
  successful_runs w m ps = [] ->
  Forall (fun pr => exists msg, pr_metrics pr !! "error" = Some msg) prs.
Proof.
  induction 1 as [| tp pr ps prs (resp & t & q & Hinf & _) _ IH]; simpl;
    [ constructor | ].
  rewrite Hinf. destruct (no_error (pr_metrics pr)) eqn:Hok; [ discriminate | ].
  intros Hruns. constructor; [ | by apply IH ].
  apply not_true_iff_false in Hok. rewrite no_error_iff in Hok.
  destruct (pr_metrics pr !! "error"); [ eauto | contradiction ].
Qed.

(** X7.  A model none of whose prompts succeeded gets a report with both
    averages 0.0 and no success rate, in which every prompt result holds an
    error; such a report is never ranked by the summary, whatever the other
    reports are. *)
Theorem failed_model_is_not_ranked w m s r s' :
  benchmark_model w m s = (Ok r, s') ->
  successful_runs w m (test_prompts s) = [] ->
  average_tps r = PyNum.Fin 0 /\ average_time r = PyNum.Fin 0 /\
  success_rate r = None /\
  Forall (fun pr => exists msg, pr_metrics pr !! "error" = Some msg) (prompts r) /\
  (forall rs, ~ In r (sorted_results rs)).
Proof.
  intros H Hruns. apply benchmark_model_report in H as (_ & _ & Hrec & H).
  cbv zeta in H, Hrec. rewrite Hruns in H. destruct H as (Htps & Htime & Hrate).
  repeat (split; [ assumption | ]).
  split; [ by apply (recorded_failures w m (test_prompts s)) | ].
  intros rs Hin. apply sorted_results_positive in Hin as [_ Hpos].
  rewrite Htps, ltb_irrefl in Hpos. discriminate Hpos.
Qed.

Lemma failed_model_is_not_ranked_witness :
  average_tps (report_of scenario_B "m2" fresh) = PyNum.Fin 0 /\
  forall rs, ~ In (report_of scenario_B "m2" fresh) (sorted_results rs).
Proof.
  destruct (failed_model_is_not_ranked scenario_B "m2" fresh
              (report_of scenario_B "m2" fresh)
              (snd (benchmark_model scenario_B "m2" fresh)))
    as (H1 & _ & _ & _ & H2);
    [ vm_compute; reflexivity | vm_compute; reflexivity | ].
  by split.
Defined.

Section Signs.

Local Open Scope Q_scope.
Import PyNum.

Lemma round_half_even_ge (a : Z) x :
  inject_Z a <= x -> (a <= round_half_even x)%Z.
Proof.
  intros Ha.
  pose proof (Qfloor_le x) as Hlo. pose proof (Qlt_floor x) as Hhi.
  assert (Haf : (a <= Qfloor x)%Z).
  { apply Z.lt_succ_r. rewrite <- Z.add_1_r. rewrite Zlt_Qlt.
    eapply Qle_lt_trans; [ exact Ha | exact Hhi ]. }
  unfold round_half_even.
  destruct (Qcompare (x - inject_Z (Qfloor x)) (1 # 2));
    [ destruct (Z.even _) | | ]; lia.
Qed.

Lemma pow2_pos c : 0 < pow2 c.
Proof.
  unfold pow2. destruct (Z.leb_spec 0 c) as [Hc | Hc].
  - rewrite <- (Zlt_Qlt 0). by apply Z.pow_pos_nonneg.
  - reflexivity.
Qed.

Lemma nearest_nonneg q : 0 <= q -> 0 <= nearest q.
Proof.
  intros Hq. unfold nearest.
  set (c := (Z.max (ilog2 q) (-1022) - 52)%Z).
  pose proof (pow2_pos c) as Hp.
  apply Qmult_le_0_compat; [ | lra ].
  rewrite <- (Zle_Qle 0). apply round_half_even_ge.
  change (inject_Z 0) with 0. apply Qle_shift_div_l; [ exact Hp | lra ].
Qed.

(** The float nearest to a rational that is not negative is a finite float
    that is not negative, or the infinity. *)
Lemma of_Q_nonneg q :
  0 <= q -> of_Q q = PosInf \/ exists r, of_Q q = Fin r /\ 0 <= r.
Proof.
  intros Hq. unfold of_Q. destruct (Qcompare q 0) eqn:Hc.
  - right. exists 0. split; [ reflexivity | lra ].
  - apply Qlt_alt in Hc. lra.
  - destruct (Qle_bool (pow2 1024) (nearest q)); [ by left | right ].
    eexists. split; [ reflexivity | ].
    rewrite Qred_correct. by apply nearest_nonneg.
Qed.

Lemma not_negative_Fin q : not_negative (Fin q) <-> 0 <= q.
Proof.
  unfold not_negative, ltb. destruct (Qcompare q 0) eqn:Hc.
  - apply Qeq_alt in Hc. split; [ lra | reflexivity ].
  - apply Qlt_alt in Hc. split; [ discriminate | lra ].
  - apply Qgt_alt in Hc. split; [ lra | reflexivity ].
Qed.

Lemma signbit_Fin q : signbit (Fin q) = false <-> 0 <= q.
Proof.
  unfold signbit. destruct (Qcompare q 0) eqn:Hc.
  - apply Qeq_alt in Hc. split; [ lra | reflexivity ].
  - apply Qlt_alt in Hc. split; [ discriminate | lra ].
  - apply Qgt_alt in Hc. split; [ lra | reflexivity ].
Qed.

Lemma of_Q_not_negative q : 0 <= q -> not_negative (of_Q q).
Proof.
  intros Hq. destruct (of_Q_nonneg q Hq) as [-> | (r & -> & Hr)];
    [ reflexivity | by apply not_negative_Fin ].
Qed.

Lemma of_Q_signbit q : 0 <= q -> signbit (of_Q q) = false.
Proof.
  intros Hq. destruct (of_Q_nonneg q Hq) as [-> | (r & -> & Hr)];
    [ reflexivity | by apply signbit_Fin ].
Qed.

Lemma of_int_signbit n : (0 <= n)%Z -> signbit (of_int n) = false.
Proof.
  intros Hn. apply of_Q_signbit. by rewrite <- (Zle_Qle 0).
Qed.

Lemma of_int_not_negative n : (0 <= n)%Z -> not_negative (of_int n).
Proof.
  intros Hn. apply of_Q_not_negative. by rewrite <- (Zle_Qle 0).
Qed.

Lemma positive_signbit x : ltb (Fin 0) x = true -> signbit x = false.
Proof.
  destruct x as [q | | | |]; try (discriminate || reflexivity).
  unfold ltb. destruct (Qcompare 0 q) eqn:Hc; try discriminate.
  intros _. apply Qlt_alt in Hc. apply signbit_Fin. lra.
Qed.

Lemma add_not_negative x y :
  not_negative x -> not_negative y -> not_negative (add x y).
Proof.
  destruct x as [p | | | |], y as [q | | | |]; intros Hx Hy;
    try discriminate; try reflexivity; try assumption.
  apply not_negative_Fin in Hx, Hy. unfold add.
  apply of_Q_not_negative. lra.
Qed.

(** A quotient of a dividend that is not negative by a divisor without the
    sign bit is not negative. *)
Lemma div_not_negative x y :
  not_negative x -> signbit y = false -> not_negative (div x y).
Proof.
  destruct x as [p | | | |], y as [q | | | |]; intros Hx Hy;
    try discriminate; try reflexivity.
  - pose proof Hy as Hq. apply signbit_Fin in Hq.
    pose proof Hx as Hp. apply not_negative_Fin in Hp.
    assert (Hsp : signbit (Fin p) = false) by (by apply signbit_Fin).
    unfold div. rewrite Hsp, Hy. cbn [xorb zero].
    destruct (Qeq_bool q 0) eqn:Hq0; [ reflexivity | ].
    destruct (Qeq_bool p 0); [ reflexivity | ].
    apply Qeq_bool_neq in Hq0.
    apply of_Q_not_negative. apply Qle_shift_div_l; lra.
  - pose proof Hx as Hp. apply not_negative_Fin in Hp.
    assert (Hsp : signbit (Fin p) = false) by (by apply signbit_Fin).
    unfold div. rewrite Hsp. reflexivity.
  - unfold div. rewrite Hy. cbn [signbit xorb zero].
    destruct (Qeq_bool q 0); reflexivity.
  - unfold div. rewrite Hy. reflexivity.
Qed.

Lemma py_round_not_negative x n : not_negative x -> not_negative (py_round x n).
Proof.
  destruct x as [q | | | |]; intros Hx; try assumption.
  pose proof Hx as Hq. apply not_negative_Fin in Hq.
  unfold py_round.
  assert (Hs : signbit (Fin q) = false) by (by apply signbit_Fin).
  rewrite Hs. cbn [zero].
  pose proof (pow10_pos n) as Hp.
  set (p := (10 ^ Z.of_nat n)%Z) in *.
  assert (HpQ : 0 < inject_Z p) by (rewrite <- (Zlt_Qlt 0); exact Hp).
  assert (Hk : (0 <= round_half_even (q * inject_Z p))%Z).
  { apply round_half_even_ge. change (inject_Z 0) with 0.
    apply Qmult_le_0_compat; lra. }
  destruct (Z.eqb_spec (round_half_even (q * inject_Z p)) 0);
    [ reflexivity | ].
  apply of_Q_not_negative. apply Qle_shift_div_l; [ exact HpQ | ].
  rewrite Qmult_0_l, <- (Zle_Qle 0). exact Hk.
Qed.

Lemma fold_add_not_negative l :
  forall acc,
    not_negative acc -> Forall not_negative l ->
    not_negative (fold_left add l acc).
Proof.
  induction l as [| x l IH]; intros acc Hacc Hl; simpl; [ exact Hacc | ].
  apply Forall_cons in Hl as [Hx Hl].
  apply IH; [ by apply add_not_negative | exact Hl ].
Qed.

End Signs.

Lemma inference_tps_not_negative w m p response total tps metrics :
  inference w m p = Ok (response, total, tps, metrics) ->
  not_negative (PyNum.to_float tps).
Proof.
  intros Hinf. destruct (inference_run _ _ _ _ Hinf) as [s' Hrun].
  destruct (no_error metrics) eqn:Hok.
  - destruct (run_inference_success _ _ _ _ _ _ _ _ _ Hrun Hok)
      as (_ & _ & _ & _ & _ & _ & _ & _ & _ & Htps & _).
    rewrite Htps. destruct (PyNum.ltb (PyNum.Fin 0) total) eqn:Hpos.
    + cbn [PyNum.to_float]. apply div_not_negative.
      * apply of_int_not_negative. lia.
      * by apply positive_signbit.
    + cbn [PyNum.to_float]. by apply of_int_not_negative.
  - pose proof (run_inference_classified w m p (base [])) as H.
    rewrite Hrun in H. simpl in H.
    destruct H as [(cp & _ & _ & (Herr & _) & _) | (msg & _ & _ & _ & _ & -> & _)].
    + apply no_error_iff in Herr. congruence.
    + reflexivity.
Qed.

Lemma successful_runs_not_negative w m ps :
  Forall not_negative (throughputs (successful_runs w m ps)).
Proof.
  unfold throughputs.
  induction ps as [| tp ps IH]; simpl; [ constructor | ].
  rewrite map_app. apply Forall_app. split; [ | exact IH ].
  destruct (inference w m (tp_prompt tp)) as [[[[resp t] q] metrics] | e] eqn:Hinf;
    [ | constructor ].
  destruct (no_error metrics); [ | constructor ].
  constructor; [ | constructor ]. by eapply inference_tps_not_negative.
Qed.

(** X8.  The throughput is never negative: neither the tokens-per-second
    value [run_inference] returns, even when the clock went backwards
    during the call, nor the [average_tps] of a report. *)
Theorem throughput_is_never_negative w m s :
  (forall p response total tps metrics s',
      run_inference w m p s = (Ok (response, total, tps, metrics), s') ->
      not_negative (PyNum.to_float tps)) /\
  (forall r s', benchmark_model w m s = (Ok r, s') ->
                not_negative (average_tps r)).
Proof.
  split.
  - intros p response total tps metrics s' H.
    rewrite run_inference_value in H. injection H as H _.
    by eapply inference_tps_not_negative.
  - intros r s' H. apply benchmark_model_report in H as (_ & _ & _ & H).
    cbv zeta in H.
    pose proof (successful_runs_not_negative w m (test_prompts s)) as Hnn.
    destruct (successful_runs w m (test_prompts s)) as [| run runs] eqn:Hruns.
    + destruct H as (-> & _). reflexivity.
    + destruct H as (-> & _). apply py_round_not_negative. unfold mean.
      apply div_not_negative.
      * apply fold_add_not_negative; [ reflexivity | exact Hnn ].
      * apply of_int_signbit. lia.
Qed.

Lemma throughput_is_never_negative_witness :
  not_negative (average_tps (report_of thirds "m" fresh)).
Proof.
  destruct (throughput_is_never_negative thirds "m" fresh) as [_ H].
  apply (H _ (snd (benchmark_model thirds "m" fresh))).
  vm_compute. reflexivity.
Defined.

(** ** The whole run *)

Lemma outcomes_names w ps models reports :
  Forall2 (fun m r => model_outcome w ps m = Ok r) models reports ->
  map model reports = models.
Proof.
  induction 1 as [| m r models reports Hm _ IH]; simpl; [ reflexivity | ].
  by rewrite IH, (model_outcome_name _ _ _ _ Hm).
Qed.

(** X9.  When every discovered model is benchmarked without an exception,
    [run_full_benchmark] returns normally; the benchmark then holds one
    report per model, in the order of discovery, after those it held
    before; the file holds the same reports and the summary printed last
    is the summary of them. *)
Theorem complete_run_keeps_discovery_order w s models reports :
  models <> [] ->
  discovered w = Ok models ->
  Forall2 (fun m r => model_outcome w (test_prompts s) m = Ok r) models reports ->
  exists s',
    run_full_benchmark w s = (Ok tt, s') /\
    results s' = results s ++ reports /\
    map model reports = models /\
    artifact_holds w s' (results s ++ reports) /\
    exists before, console s' = before ++ summary_lines (results s ++ reports).
Proof.
  intros Hne Hd Hall.
  destruct models as [| m0 ms]; [ contradiction | ].
  destruct (run_full_benchmark_nonempty w s m0 ms Hd) as [ls ->].
  destruct (benchmark_models_prefix w (length (m0 :: ms)) (m0 :: ms) reports
              1 [] (log s ls) Hall) as [ls' Hprefix].
  rewrite app_nil_r in Hprefix.
  change (benchmark_models w (length (m0 :: ms)) (1 + length (m0 :: ms)) []
            (add_results (log (log s ls) ls') reports))
    with (Ok tt, add_results (log (log s ls) ls') reports) in Hprefix.
  destruct (finalize_after_loop _ _ _ _ _ _ Hprefix) as (s' & -> & Hr & Ha & Hc).
  exists s'. split; [ reflexivity | ]. simpl in *.
  split; [ exact Hr | ].
  split; [ by apply (outcomes_names w (test_prompts s)) | ].
  split; [ exact Ha | exact Hc ].
Qed.

Lemma complete_run_keeps_discovery_order_witness :
  exists s',
    run_full_benchmark scenario_A started = (Ok tt, s') /\
    results s' = results started ++ [report_of scenario_A "m1" fresh] /\
    map model [report_of scenario_A "m1" fresh] = ["m1" : text] /\
    artifact_holds scenario_A s'
      (results started ++ [report_of scenario_A "m1" fresh]) /\
    exists before,
      console s' = before ++
        summary_lines (results started ++ [report_of scenario_A "m1" fresh]).
Proof.
  refine (complete_run_keeps_discovery_order scenario_A started
            ["m1" : text] [report_of scenario_A "m1" fresh] _ _ _).
  - discriminate.
  - vm_compute. reflexivity.
  - constructor; [ vm_compute; reflexivity | constructor ].
Defined.

(** ** The summary *)

(** X10.  The ranked reports are exactly the reports with a positive
    [average_tps], and the one announced as fastest has the greatest
    [average_tps] of all of them. *)
Theorem fastest_is_maximal rs :
  (forall r, In r (sorted_results rs)
             <-> In r rs /\ PyNum.ltb (PyNum.Fin 0) (average_tps r) = true) /\
  length (sorted_results rs) = length (positive rs) /\
  (forall fastest rest,
      sorted_results rs = fastest :: rest ->
      In fastest rs /\ PyNum.ltb (PyNum.Fin 0) (average_tps fastest) = true /\
      forall r, In r rs -> PyNum.ltb (PyNum.Fin 0) (average_tps r) = true ->
                PyNum.leb (average_tps r) (average_tps fastest) = true).
Proof.
  split; [ intros r; apply sorted_results_positive | ].
  split.
  { unfold sorted_results, positive.
    apply Permutation_length, sorted_reverse_perm. }
  intros fastest rest Hs.
  assert (Hin : In fastest (sorted_results rs)) by (rewrite Hs; by left).
  apply sorted_results_positive in Hin as [Hin Hpos].
  split; [ exact Hin | ]. split; [ exact Hpos | ].
  intros r Hr Hrpos.
  assert (Hr' : In r (sorted_results rs)) by (by apply sorted_results_positive).
  pose proof (sorted_results_descending rs) as Hsorted.
  unfold descending in Hsorted. rewrite Hs in Hsorted, Hr'.
  apply StronglySorted_inv in Hsorted as [_ Hall].
  destruct Hr' as [<- | Hr'].
  - apply ltb_not_nan in Hpos as [_ Hnan].
    apply ltb_false_leb; [ exact Hnan | exact Hnan | apply ltb_irrefl ].
  - rewrite List.Forall_forall in Hall. by apply Hall.
Qed.

Lemma fastest_is_maximal_witness :
  let rs := [report_with "a" (PyNum.Fin 5); report_with "b" (PyNum.Fin 0);
             report_with "c" (PyNum.Fin (15 # 2))] in
  In (report_with "c" (PyNum.Fin (15 # 2))) rs /\
  PyNum.ltb (PyNum.Fin 0) (average_tps (report_with "c" (PyNum.Fin (15 # 2)))) = true /\
  forall r,
    In r rs -> PyNum.ltb (PyNum.Fin 0) (average_tps r) = true ->
    PyNum.leb (average_tps r) (average_tps (report_with "c" (PyNum.Fin (15 # 2))))
    = true.
Proof.
  destruct (fastest_is_maximal
              [report_with "a" (PyNum.Fin 5); report_with "b" (PyNum.Fin 0);
               report_with "c" (PyNum.Fin (15 # 2))])
    as (_ & _ & H).
  apply (H _ [report_with "a" (PyNum.Fin 5)]). vm_compute. reflexivity.
Defined.

(** X11.  [print_summary] never raises and changes nothing but the console:
    the reports keep their order, the disk is untouched, and a second call
    prints the same lines again.  Every row shows a prefix of the model
    name of at most 34 characters. *)
Theorem print_summary_only_prints s :
  let s1 := snd (print_summary s) in
  fst (print_summary s) = Ok tt /\
  results s1 = results s /\ disk s1 = disk s /\ disk_seen s1 = disk_seen s /\
  (exists ls,
      console s1 = console s ++ ls /\
      console (snd (print_summary s1)) = (console s ++ ls) ++ ls) /\
  Forall (fun r =>
            exists shown rest,
              table_row r
              = TableRow shown (average_tps r) (average_time r)
                  (times_100 (get_success_rate r)) /\
              model r = shown ++ rest /\
              (length shown <= 34)%nat)
         (sorted_results (results s)).
Proof.
  cbv zeta. rewrite print_summary_run. cbn [fst snd].
  repeat (split; [ reflexivity | ]). split.
  - exists (summary_lines (results s)). split; [ reflexivity | ].
    rewrite print_summary_run. reflexivity.
  - apply List.Forall_forall. intros r _.
    destruct (take_prefix 34 (model r)) as [rest Hrest].
    exists (PyStr.take 34 (model r)), rest.
    split; [ reflexivity | ]. split; [ exact Hrest | ].
    rewrite take_length. lia.
Qed.

(** ** [save_results] *)

(** X12.  [save_results] changes one file only: every other file on the
    disk, the reports and the prompts are as before.  The file records the
    prompts of the benchmark and a timeout of 120 seconds. *)
Theorem save_results_touches_one_file w s :
  let s1 := snd (save_results w s) in
  results s1 = results s /\ test_prompts s1 = test_prompts s /\
  (forall f, f <> artifact_name w -> disk s1 !! f = disk s !! f) /\
  exists d,
    disk s1 !! artifact_name w = Some (JsonFile d) /\
    tc_prompts (test_configuration d) = test_prompts s /\
    tc_timeout_seconds (test_configuration d) = 120.
Proof.
  cbv zeta. unfold save_results, open_w, json_dump. run_monad.
  fold (artifact_name w).
  split; [ reflexivity | ]. split; [ reflexivity | ]. split.
  - intros f Hf. by rewrite !lookup_insert_ne.
  - eexists. split; [ by rewrite lookup_insert_eq | ].
    split; reflexivity.
Qed.

Lemma save_results_touches_one_file_witness :
  let s := snd (save_results scenario_B (holding [report_with "a" (PyNum.Fin 5)])) in
  disk (snd (save_results slow_word s)) !! "benchmark-results-2024-12-31.json"
  = disk s !! "benchmark-results-2024-12-31.json".
Proof.
  cbv zeta.
  destruct (save_results_touches_one_file slow_word
              (snd (save_results scenario_B
                      (holding [report_with "a" (PyNum.Fin 5)]))))
    as (_ & _ & H & _).
  apply H. vm_compute. discriminate.
Defined.

(** ** [main] *)

Lemma main_after_probe w d cp :
  version_probe w = Exited cp -> returncode cp = 0 ->
  main w (boot d) =
  try_except (run_full_benchmark w)
    (fun e =>
       if is_class KeyboardInterrupt e then
         print Interrupted;;
         results ← self_results;
         match results with
         | [] => mret tt
         | _ => save_results w;; print_summary
         end
       else raise e)
    (started_on d).
Proof.
  intros Hp Hrc. unfold main.
  unfold mbind at 1. unfold M_bind at 1. unfold print at 1.
  unfold mbind at 1. unfold M_bind at 1. unfold print at 1.
  unfold mbind at 1. unfold M_bind at 1. unfold try_except at 1.
  unfold mbind at 1. unfold M_bind at 1. unfold lift at 1.
  rewrite Hp. unfold subprocess_run. rewrite Hrc. cbn [Z.eqb negb andb].
  unfold mret at 1. unfold M_ret at 1.
  unfold mbind at 1. unfold M_bind at 1. unfold init at 1.
  reflexivity.
Qed.

(** X13.  When the availability probe exits with a non-zero status, or
    raises [CalledProcessError] or [FileNotFoundError], [main] prints that
    Ollama was not found and exits with status 1: no model is listed or
    benchmarked and the disk is untouched. *)
Theorem main_exits_without_ollama w d :
  (exists cp, version_probe w = Exited cp /\ returncode cp <> 0) \/
  (exists e, version_probe w = Failed e /\
             (is_class CalledProcessError e || is_class FileNotFoundError e) = true) ->
  main w (boot d)
  = (Raise (Exn SystemExit "1"), log (boot d) [Banner; Rule 50; OllamaNotFound]).
Proof.
  intros H. unfold main. run_monad.
  destruct H as [([rc out err] & -> & Hrc) | (e & -> & He)]; simpl in *.
  - destruct (Z.eqb_spec rc 0) as [? | _]; [ contradiction | ]. reflexivity.
  - rewrite He. reflexivity.
Qed.

Lemma main_exits_without_ollama_witness :
  main no_ollama (boot ∅)
  = (Raise (Exn SystemExit "1"), log (boot ∅) [Banner; Rule 50; OllamaNotFound]).
Proof.
  apply main_exits_without_ollama. right.
  eexists. split; reflexivity.
Defined.

(** X14.  When the probe succeeds, [main] is [run_full_benchmark] on a fresh
    benchmark, unless that raises [KeyboardInterrupt]: it returns or raises
    the same, in the same state.  In particular an exception of the model
    listing other than [CalledProcessError] and [KeyboardInterrupt] ends
    [main]. *)
Theorem main_runs_the_benchmark w d cp v s' :
  version_probe w = Exited cp -> returncode cp = 0 ->
  run_full_benchmark w (started_on d) = (v, s') ->
  (forall e, v = Raise e -> is_class KeyboardInterrupt e = false) ->
  main w (boot d) = (v, s').
Proof.
  intros Hp Hrc Hrun Hv. rewrite (main_after_probe w d cp Hp Hrc).
  unfold try_except. rewrite Hrun.
  destruct v as [[] | e]; [ reflexivity | ].
  by rewrite (Hv e eq_refl).
Qed.

Lemma main_runs_the_benchmark_witness :
  main scenario_B (boot ∅) = run_full_benchmark scenario_B (started_on ∅).
Proof.
  destruct (run_full_benchmark scenario_B (started_on ∅)) as [v s'] eqn:E.
  apply (main_runs_the_benchmark scenario_B ∅
           {| returncode := 0; stdout := "ollama version is 0.5.7"; stderr := "" |}).
  - reflexivity.
  - reflexivity.
  - exact E.
  - intros e ->. apply (f_equal fst) in E. vm_compute in E. discriminate E.
Defined.




(** ** Ranked reports have a success rate *)

(** X16.  A report of [benchmark_model] with a positive [average_tps] has a
    [success_rate] entry, so for the rows of the summary the default of
    [result.get('success_rate', 0)] is never used. *)
Theorem ranked_report_has_success_rate w m s r s' :
  benchmark_model w m s = (Ok r, s') ->
  PyNum.ltb (PyNum.Fin 0) (average_tps r) = true ->
  exists q, success_rate r = Some q /\ get_success_rate r = PyNum.Float q.
Proof.
  intros H Hpos. apply benchmark_model_report in H as (_ & _ & _ & H).
  cbv zeta in H.
  destruct (successful_runs w m (test_prompts s)) as [| run runs].
  - destruct H as (Htps & _). rewrite Htps, ltb_irrefl in Hpos.
    discriminate Hpos.
  - destruct H as (_ & _ & Hrate). eexists. split; [ exact Hrate | ].
    unfold get_success_rate. by rewrite Hrate.
Qed.

Lemma ranked_report_has_success_rate_witness :
  exists q,
    success_rate (report_of thirds "m" fresh) = Some q /\
    get_success_rate (report_of thirds "m" fresh) = PyNum.Float q.
Proof.
  refine (ranked_report_has_success_rate thirds "m" fresh
            (report_of thirds "m" fresh)
            (snd (benchmark_model thirds "m" fresh)) _ _);
    vm_compute; reflexivity.
Defined.

(** ** Discovery: the header line *)

Lemma split_on_aux_length sep s :
  forall cur, length (PyStr.split_on_aux sep cur s) = S (count_char sep s).
Proof.
  induction s as [| x s IH]; intros cur; simpl; [ reflexivity | ].
  destruct (N.eqb x sep); simpl; by rewrite IH.
Qed.

Lemma model_names_length lines : (length (model_names lines) <= length lines)%nat.
Proof.
  induction lines as [| ln lines IH]; [ simpl; lia | ].
  change (model_names (ln :: lines))
    with (match PyStr.strip ln with
          | [] => []
          | _ => [hd [] (PyStr.split_ws ln)]
          end ++ model_names lines).
  rewrite length_app. cbn [length].
  destruct (PyStr.strip ln); cbn [length]; unfold text in *; lia.
Qed.

(** X17.  The first line of the listing is never taken for a model: when
    [ollama list] succeeds, [get_available_models] returns at most as many
    names as there are line breaks in the stripped output, and none for an
    output of a single line. *)
Theorem header_line_is_discarded w s cp :
  list_probe w = Exited cp -> returncode cp = 0 ->
  exists models ls,
    get_available_models w s = (Ok models, log s ls) /\
    (length models <= count_char PyStr.LF (PyStr.strip (stdout cp)))%nat.
Proof.
  intros Hp Hrc. destruct cp as [rc out err]. simpl in Hrc. subst rc.
  unfold get_available_models. rewrite Hp. run_monad.
  eexists _, []. rewrite log_nil. split; [ reflexivity | ].
  etransitivity; [ apply model_names_length | ].
  unfold PyStr.split_on.
  pose proof (split_on_aux_length PyStr.LF (PyStr.strip out) []) as Hlen.
  destruct (PyStr.split_on_aux PyStr.LF [] (PyStr.strip out)); simpl in *; lia.
Qed.

Lemma header_line_is_discarded_witness :
  exists models ls,
    get_available_models
      (a_world (exits 0 "NAME ID SIZE MODIFIED" "") (fun _ _ => times_out)) started
    = (Ok models, log started ls) /\
    (length models
     <= count_char PyStr.LF (PyStr.strip (PyStr.u "NAME ID SIZE MODIFIED")))%nat.
Proof.
  refine (header_line_is_discarded
            (a_world (exits 0 "NAME ID SIZE MODIFIED" "") (fun _ _ => times_out))
            started
            {| returncode := 0; stdout := "NAME ID SIZE MODIFIED"; stderr := "" |}
            _ _);
    reflexivity.
Defined.

(** ** White space and characters beyond ASCII *)


(** ** Rounding of floats *)

(** X19.  The recorded throughput is the rounding of the float, not of the
    exact quotient.  One token in 40 seconds is 0.025 tokens per second, a
    float slightly above 1/40, and is recorded as 0.03; 107 tokens in 40
    seconds are 2.675 tokens per second, a float slightly below 107/40, and
    are recorded as 2.67. *)
Theorem recorded_throughput_rounds_the_float :
  let w := a_world (exits 0 (listing ["m" : text]) "")
             (fun _ _ => answers (words 107) 40) in
  fst (run_inference forty_seconds "m" "Say a." fresh)
    = Ok (PyStr.u "a", PyNum.Fin 40, PyNum.Float (PyNum.int_div 1 40),
          success_metrics (PyNum.Fin 40) 1 (PyNum.Float (PyNum.int_div 1 40))
            (PyNum.Fin 1) 1) /\
  PyNum.ltb (PyNum.Fin (1 # 40)) (PyNum.int_div 1 40) = true /\
  PyNum.py_round (PyNum.int_div 1 40) 2 = PyNum.int_div 3 100 /\
  fst (run_inference w "m" "Say a." fresh)
    = Ok (PyStr.strip (words 107), PyNum.Fin 40,
          PyNum.Float (PyNum.int_div 107 40),
          success_metrics (PyNum.Fin 40) 107 (PyNum.Float (PyNum.int_div 107 40))
            (PyNum.Fin 1) 427) /\
  success_metrics (PyNum.Fin 40) 107 (PyNum.Float (PyNum.int_div 107 40))
    (PyNum.Fin 1) 427 !! "tokens_per_second"
    = Some (VNum (PyNum.Float (PyNum.int_div 267 100))) /\
  PyNum.ltb (PyNum.int_div 107 40) (PyNum.Fin (107 # 40)) = true /\
  PyNum.py_round (PyNum.int_div 107 40) 2 = PyNum.int_div 267 100.
Proof.
  cbv zeta. split_and!; vm_compute; reflexivity.
Qed.

(** ** The float of a rational does not depend on how it is written *)

Section Representation.

Local Open Scope Q_scope.
Import PyNum.

Lemma pow2_Qpower c : pow2 c == 2 ^ c.
Proof.
  unfold pow2. destruct (Z.leb_spec 0 c) as [Hc | Hc].
  - by rewrite Zpower_Qpower.
  - assert (Hp : (0 < 2 ^ (- c))%Z) by (apply Z.pow_pos_nonneg; lia).
    rewrite (Qmake_Qdiv 1 (Z.to_pos (2 ^ (- c)))), Z2Pos.id by exact Hp.
    rewrite Zpower_Qpower by lia.
    replace c with (0 - (- c))%Z at 2 by lia.
    rewrite Qpower_minus by discriminate. reflexivity.
Qed.

(** [ilog2 q] is the exponent of the power of two at or below [q]. *)
Lemma ilog2_spec q : 0 < q -> 2 ^ ilog2 q <= q /\ q < 2 ^ (ilog2 q + 1).
Proof.
  intros Hq. destruct q as [n d]. unfold ilog2. cbn [Qnum Qden].
  assert (Hn : (0 < n)%Z) by (unfold Qlt in Hq; simpl in Hq; lia).
  destruct (Z.log2_spec n Hn) as [Hn1 Hn2].
  destruct (Z.log2_spec (Z.pos d) (Pos2Z.is_pos d)) as [Hd1 Hd2].
  pose proof (Z.log2_nonneg n) as Ha. pose proof (Z.log2_nonneg (Z.pos d)) as Hb.
  set (a := Z.log2 n) in *. set (b := Z.log2 (Z.pos d)) in *.
  assert (H2 : forall k, 0 < 2 ^ k) by (intros k; by apply Qpower_0_lt).
  assert (Hlo : 2 ^ (a - b - 1) <= n # d).
  { replace (a - b - 1)%Z with (a - (b + 1))%Z by lia.
    rewrite Qpower_minus by discriminate.
    change (2 ^ a / 2 ^ (b + 1)) with (inject_Z 2 ^ a / inject_Z 2 ^ (b + 1)).
    rewrite <- (Zpower_Qpower 2 a), <- (Zpower_Qpower 2 (b + 1)) by lia.
    apply Qle_shift_div_r; [ rewrite <- (Zlt_Qlt 0); apply Z.pow_pos_nonneg; lia | ].
    unfold Qle, Qmult, inject_Z. cbn [Qnum Qden]. rewrite Pos.mul_1_r.
    rewrite Z.add_1_r. nia. }
  assert (Hhi : n # d < 2 ^ (a - b + 1)).
  { replace (a - b + 1)%Z with (a + 1 - b)%Z by lia.
    rewrite Qpower_minus by discriminate.
    change (2 ^ (a + 1) / 2 ^ b) with (inject_Z 2 ^ (a + 1) / inject_Z 2 ^ b).
    rewrite <- (Zpower_Qpower 2 (a + 1)), <- (Zpower_Qpower 2 b) by lia.
    apply Qlt_shift_div_l; [ rewrite <- (Zlt_Qlt 0); apply Z.pow_pos_nonneg; lia | ].
    unfold Qlt, Qmult, inject_Z. cbn [Qnum Qden]. rewrite Pos.mul_1_r.
    rewrite Z.add_1_r. nia. }
  destruct (Qle_bool (pow2 (a - b)) (n # d)) eqn:Hle.
  - apply Qle_bool_iff in Hle. rewrite pow2_Qpower in Hle. by split.
  - apply not_true_iff_false in Hle. rewrite Qle_bool_iff, pow2_Qpower in Hle.
    apply Qnot_le_lt in Hle.
    replace (a - b - 1 + 1)%Z with (a - b)%Z by lia. by split.
Qed.

Lemma ilog2_unique q e e' :
  2 ^ e <= q -> q < 2 ^ (e + 1) -> 2 ^ e' <= q -> q < 2 ^ (e' + 1) -> e = e'.
Proof.
  intros H1 H2 H3 H4.
  assert (Ha : (e < e' + 1)%Z).
  { apply (Qpower_lt_compat_l_inv 2); [ | reflexivity ].
    eapply Qle_lt_trans; eassumption. }
  assert (Hb : (e' < e + 1)%Z).
  { apply (Qpower_lt_compat_l_inv 2); [ | reflexivity ].
    eapply Qle_lt_trans; eassumption. }
  lia.
Qed.

Lemma ilog2_comp p q : 0 < p -> p == q -> ilog2 p = ilog2 q.
Proof.
  intros Hp H. assert (Hq : 0 < q) by (by rewrite <- H).
  destruct (ilog2_spec p Hp) as [H1 H2]. destruct (ilog2_spec q Hq) as [H3 H4].
  assert (H1' : 2 ^ ilog2 p <= q) by (rewrite <- H; exact H1).
  assert (H2' : q < 2 ^ (ilog2 p + 1)) by (rewrite <- H; exact H2).
  by apply (ilog2_unique q).
Qed.

Lemma nearest_comp p q : 0 < p -> p == q -> nearest p == nearest q.
Proof.
  intros Hp H. unfold nearest. rewrite (ilog2_comp p q Hp H).
  set (c := (Z.max (ilog2 q) (-1022) - 52)%Z).
  rewrite (round_half_even_comp (p / pow2 c) (q / pow2 c)); [ reflexivity | ].
  by rewrite H.
Qed.

(** Equal rationals have the same float. *)
Lemma of_Q_comp p q : p == q -> of_Q p = of_Q q.
Proof.
  intros H. unfold of_Q.
  rewrite (Qcompare_comp p q H 0 0 (Qeq_refl 0)).
  destruct (Qcompare q 0) eqn:Hc; [ reflexivity | | ].
  - apply Qlt_alt in Hc.
    assert (Hn : nearest (- p) == nearest (- q)).
    { apply nearest_comp; [ rewrite H; lra | by rewrite H ]. }
    rewrite (Qleb_comp _ _ (Qeq_refl (pow2 1024)) _ _ Hn).
    destruct (Qle_bool (pow2 1024) (nearest (- q))); [ reflexivity | ].
    rewrite (Qeqb_comp _ _ Hn 0 0 (Qeq_refl 0)).
    destruct (Qeq_bool (nearest (- q)) 0); [ reflexivity | ].
    f_equal. apply Qred_complete. by rewrite Hn.
  - apply Qgt_alt in Hc.
    assert (Hn : nearest p == nearest q).
    { apply nearest_comp; [ rewrite H; lra | exact H ]. }
    rewrite (Qleb_comp _ _ (Qeq_refl (pow2 1024)) _ _ Hn).
    destruct (Qle_bool (pow2 1024) (nearest q)); [ reflexivity | ].
    f_equal. by apply Qred_complete.
Qed.

Lemma int_div_same n : n <> 0%Z -> int_div n n = Fin 1.
Proof.
  intros Hn. unfold int_div.
  rewrite (of_Q_comp (inject_Z n / inject_Z n) 1); [ vm_compute; reflexivity | ].
  apply Qmult_inv_r. intros H. apply Hn.
  unfold Qeq in H. simpl in H. lia.
Qed.

(** The float of a rational in the normal range is within a relative
    [2 ^ -53] of it. *)
Lemma of_Q_near q r :
  pow2 (-1022) <= q -> of_Q q = Fin r ->
  q - q * pow2 (-53) <= r <= q + q * pow2 (-53).
Proof.
  intros Hmin Hr.
  assert (Hq : 0 < q).
  { eapply Qlt_le_trans; [ apply (pow2_pos (-1022)) | exact Hmin ]. }
  unfold of_Q in Hr.
  destruct (Qcompare q 0) eqn:Hc;
    [ apply Qeq_alt in Hc; lra | apply Qlt_alt in Hc; lra | ].
  destruct (Qle_bool (pow2 1024) (nearest q)); [ discriminate Hr | ].
  injection Hr as <-. rewrite Qred_correct.
  destruct (ilog2_spec q Hq) as [H1 H2].
  unfold nearest. set (e := ilog2 q) in *.
  assert (He : (-1022 <= e)%Z).
  { assert (H : (-1022 < e + 1)%Z); [ | lia ].
    apply (Qpower_lt_compat_l_inv 2); [ | reflexivity ].
    rewrite <- pow2_Qpower. eapply Qle_lt_trans; eassumption. }
  rewrite Z.max_l by lia.
  pose proof (pow2_pos (e - 52)) as Hp.
  pose proof (round_half_even_near (q / pow2 (e - 52))) as [Hk1 Hk2].
  set (k := inject_Z (round_half_even (q / pow2 (e - 52)))) in *.
  assert (Hhalf : pow2 (e - 52) * (1 # 2) <= q * pow2 (-53)).
  { rewrite (pow2_Qpower (e - 52)).
    replace (e - 52)%Z with (e + -52)%Z by lia.
    rewrite Qpower_plus by discriminate.
    rewrite <- Qmult_assoc.
    assert (Hc53 : 2 ^ (-52) * (1 # 2) == pow2 (-53)) by (vm_compute; reflexivity).
    rewrite Hc53.
    apply Qmult_le_compat_r; [ exact H1 | ].
    apply Qlt_le_weak, pow2_pos. }
  assert (HxP : q / pow2 (e - 52) * pow2 (e - 52) == q).
  { field. intros H. rewrite H in Hp. by apply Qlt_irrefl in Hp. }
  pose proof (Qmult_le_compat_r _ _ (pow2 (e - 52)) Hk1 (Qlt_le_weak _ _ Hp)) as Hlo.
  pose proof (Qmult_le_compat_r _ _ (pow2 (e - 52)) Hk2 (Qlt_le_weak _ _ Hp)) as Hhi.
  clearbody k. generalize dependent (q / pow2 (e - 52)). intros x _ _ HxP Hlo Hhi.
  generalize dependent (pow2 (e - 52)). intros P _ Hhalf HxP Hlo Hhi.
  split; lra.
Qed.

Lemma Qred_inject_Z n : Qred (inject_Z n) = inject_Z n.
Proof.
  unfold Qred, inject_Z.
  pose proof (Z.ggcd_gcd n 1) as Hg.
  pose proof (Z.ggcd_correct_divisors n 1) as Hd.
  destruct (Z.ggcd n 1) as [g [a b]]. cbn [fst snd] in *.
  rewrite Z.gcd_1_r in Hg. subst g.
  destruct Hd as [Ha Hb]. rewrite Z.mul_1_l in Ha, Hb. by subst.
Qed.

(** An integer below [2 ^ 53] is a float. *)
Lemma of_int_exact n : (0 <= n < 2 ^ 53)%Z -> of_int n = Fin (inject_Z n).
Proof.
  intros [Hn Hlt]. unfold of_int, of_Q.
  destruct (Qcompare (inject_Z n) 0) eqn:Hc.
  - apply Qeq_alt in Hc. f_equal.
    unfold Qeq in Hc. simpl in Hc. by replace n with 0%Z by lia.
  - apply Qlt_alt in Hc. unfold Qlt in Hc. simpl in Hc. lia.
  - apply Qgt_alt in Hc.
    assert (Hpos : (0 < n)%Z) by (unfold Qlt in Hc; simpl in Hc; lia).
    destruct (ilog2_spec (inject_Z n) Hc) as [H1 H2].
    assert (Hnear : nearest (inject_Z n) == inject_Z n).
    { unfold nearest. set (e := ilog2 (inject_Z n)) in *.
      assert (He0 : (0 <= e)%Z).
      { assert (H : (0 < e + 1)%Z); [ | lia ].
        apply (Qpower_lt_compat_l_inv 2); [ | reflexivity ].
        eapply Qle_lt_trans; [ | exact H2 ].
        change (2 ^ 0) with (inject_Z 1). rewrite <- Zle_Qle. lia. }
      assert (He : (e <= 52)%Z).
      { assert (H : (e < 53)%Z); [ | lia ].
        apply (Qpower_lt_compat_l_inv 2); [ | reflexivity ].
        eapply Qle_lt_trans; [ exact H1 | ].
        change (2 ^ 53) with (inject_Z (2 ^ 53)%Z). by rewrite <- Zlt_Qlt. }
      rewrite Z.max_l by lia.
      pose proof (pow2_pos (e - 52)) as Hp.
      assert (Hm : inject_Z n / pow2 (e - 52) == inject_Z (n * 2 ^ (52 - e))).
      { rewrite inject_Z_mult, Zpower_Qpower by lia. change (inject_Z 2) with 2.
        rewrite pow2_Qpower.
        assert (Hinv : 2 ^ (e - 52) * 2 ^ (52 - e) == 1).
        { rewrite <- Qpower_plus by discriminate.
          by replace (e - 52 + (52 - e))%Z with 0%Z by lia. }
        pose proof (Qpower_0_lt 2 (e - 52) eq_refl) as HA.
        generalize dependent (2 ^ (52 - e)). generalize dependent (2 ^ (e - 52)).
        intros A HA B Hinv.
        assert (HA0 : ~ A == 0) by (intros H; rewrite H in HA; by apply Qlt_irrefl in HA).
        assert (HB : B == / A).
        { transitivity (A * B / A); [ by field | rewrite Hinv; by field ]. }
        rewrite HB. reflexivity. }
      rewrite (round_half_even_comp _ _ Hm).
      assert (Hk : round_half_even (inject_Z (n * 2 ^ (52 - e)))
                   = (n * 2 ^ (52 - e))%Z).
      { pose proof (round_half_even_between (n * 2 ^ (52 - e)) (n * 2 ^ (52 - e))
                      (inject_Z (n * 2 ^ (52 - e)))) as Hb.
        assert (Hle : inject_Z (n * 2 ^ (52 - e)) <= inject_Z (n * 2 ^ (52 - e)))
          by apply Qle_refl.
        specialize (Hb (conj Hle Hle)). lia. }
      rewrite Hk, <- Hm. field.
      intros H. rewrite H in Hp. by apply Qlt_irrefl in Hp. }
    rewrite (Qleb_comp _ _ (Qeq_refl (pow2 1024)) _ _ Hnear).
    destruct (Qle_bool (pow2 1024) (inject_Z n)) eqn:Hov.
    + apply Qle_bool_iff in Hov.
      assert (Hbig : inject_Z n < pow2 1024).
      { eapply Qlt_le_trans; [ rewrite <- Zlt_Qlt; exact Hlt | ].
        vm_compute. discriminate. }
      lra.
    + f_equal. rewrite (Qred_complete _ _ Hnear). apply Qred_inject_Z.
Qed.

End Representation.

(** X20.  When every prompt of a model succeeds, the report records a
    success rate of exactly 1.0. *)
Theorem all_prompts_succeed_rate_one w m s r s' :
  benchmark_model w m s = (Ok r, s') ->
  test_prompts s <> [] ->
  length (successful_runs w m (test_prompts s)) = length (test_prompts s) ->
  success_rate r = Some (PyNum.Fin 1) /\
  get_success_rate r = PyNum.Float (PyNum.Fin 1) /\
  times_100 (get_success_rate r) = PyNum.Float (PyNum.Fin 100).
Proof.
  intros H Hne Hall. apply benchmark_model_report in H as (_ & _ & _ & H).
  cbv zeta in H.
  assert (Hrate : success_rate r = Some (PyNum.Fin 1)).
  { destruct (successful_runs w m (test_prompts s)) as [| run runs] eqn:Hruns.
    - destruct (test_prompts s); [ contradiction | discriminate Hall ].
    - destruct H as (_ & _ & ->). rewrite Hall, int_div_same.
      + vm_compute. reflexivity.
      + destruct (test_prompts s); [ contradiction | simpl; lia ]. }
  unfold get_success_rate. rewrite Hrate.
  split_and!; [ reflexivity | reflexivity | vm_compute; reflexivity ].
Qed.

(** Scenario A: the three prompts succeed. *)
Lemma all_prompts_succeed_rate_one_witness :
  success_rate (report_of scenario_A "m1" fresh) = Some (PyNum.Fin 1) /\
  get_success_rate (report_of scenario_A "m1" fresh) = PyNum.Float (PyNum.Fin 1) /\
  times_100 (get_success_rate (report_of scenario_A "m1" fresh))
  = PyNum.Float (PyNum.Fin 100).
Proof.
  refine (all_prompts_succeed_rate_one scenario_A "m1" fresh
            (report_of scenario_A "m1" fresh)
            (snd (benchmark_model scenario_A "m1" fresh)) _ _ _).
  - vm_compute. reflexivity.
  - discriminate.
  - vm_compute. reflexivity.
Defined.

(** X21.  The throughput [run_inference] returns is accurate: for a token
    count below [2 ^ 53] and a quotient in the normal range of the floats,
    it differs from the exact quotient of the token count and the elapsed
    time by at most a relative [2 ^ -53]. *)
Theorem throughput_is_accurate w m p s response t tps metrics s' r :
  run_inference w m p s = (Ok (response, PyNum.Fin t, tps, metrics), s') ->
  no_error metrics = true ->
  (0 < t)%Q ->
  let tokens := Z.of_nat (count_tokens response) in
  let exact := (inject_Z tokens / t)%Q in
  (tokens < 2 ^ 53)%Z ->
  (PyNum.pow2 (-1022) <= exact)%Q ->
  tps = PyNum.Float (PyNum.Fin r) ->
  (exact - exact * PyNum.pow2 (-53) <= r <= exact + exact * PyNum.pow2 (-53))%Q.
Proof.
  intros Hrun Hok Ht tokens exact Htok Hmin Htps.
  destruct (run_inference_success _ _ _ _ _ _ _ _ _ Hrun Hok)
    as (_ & _ & _ & _ & _ & _ & _ & _ & _ & Hq & _).
  fold tokens in Hq.
  assert (Hpos : PyNum.ltb (PyNum.Fin 0) (PyNum.Fin t) = true).
  { unfold PyNum.ltb. destruct (Qcompare 0 t) eqn:E;
      [ apply Qeq_alt in E; lra | reflexivity | apply Qgt_alt in E; lra ]. }
  rewrite Hpos, Htps in Hq. injection Hq as Hq.
  rewrite of_int_exact in Hq by (subst tokens; lia).
  assert (Hexact : (0 < exact)%Q).
  { eapply Qlt_le_trans; [ apply (pow2_pos (-1022)) | exact Hmin ]. }
  unfold PyNum.div in Hq.
  destruct (Qeq_bool t 0) eqn:Ht0.
  { apply Qeq_bool_iff in Ht0. rewrite Ht0 in Ht. by apply Qlt_irrefl in Ht. }
  destruct (Qeq_bool (inject_Z tokens) 0) eqn:Hn0.
  { apply Qeq_bool_iff in Hn0. unfold exact in Hexact.
    rewrite Hn0 in Hexact. unfold Qdiv in Hexact. rewrite Qmult_0_l in Hexact.
    by apply Qlt_irrefl in Hexact. }
  symmetry in Hq. by apply of_Q_near.
Qed.

(** One token in three seconds: the float nearest to 1/3. *)
Lemma throughput_is_accurate_witness :
  let exact := (inject_Z (Z.of_nat (count_tokens (PyStr.u "a"))) / 3)%Q in
  (exact - exact * PyNum.pow2 (-53)
   <= 6004799503160661 # 18014398509481984
   <= exact + exact * PyNum.pow2 (-53))%Q.
Proof.
  refine (throughput_is_accurate slow_word "m" "Say a." fresh
            "a" 3
            (PyNum.Float (PyNum.div (PyNum.of_int 1) (PyNum.Fin 3)))
            (success_metrics (PyNum.Fin 3) 1
               (PyNum.Float (PyNum.div (PyNum.of_int 1) (PyNum.Fin 3)))
               (PyNum.Fin 1) 1)
            (log fresh [TestingPrompt (PyStr.u "Say a.")])
            (6004799503160661 # 18014398509481984) _ _ _ _ _ _);
    vm_compute; (reflexivity || discriminate).
Defined.
